(** * Verification of the tileset version synchronizer

    Source: [scripts/http_host/http_host_lib/deploy_tileset.py].

    [deploy_tileset] is a Python function that talks to an HTTP server and
    to the local file system.  It is embedded as a program tree over the
    primitive operations the function performs ([requests.get],
    [Path.exists], [open]/[read], [Path.unlink], [open(..., 'w')],
    [fp.write], [print]); an interpreter runs the tree against a model of
    the HTTP server and of the file system and records every operation
    together with the file system it leaves behind.

    What the model takes from Python and from the platform:
    - a [str] is a sequence of 8-bit code points;
    - [requests.get] either raises or returns a response with a status code
      and a decoded body, and [raise_for_status] raises on codes 400..599;
    - the file system holds regular files, named by the path strings the
      function builds; distinct path strings name distinct files (the marker
      paths are only ever looked up, the two record paths are fixed), and the
      directory of the version records exists, so that opening a record for
      writing succeeds;
    - files are opened in text mode with the default [newline=None]: reading
      translates CR LF and CR to LF, writing on a POSIX system translates
      nothing;
    - [open(path, 'w')] empties the file when it opens it, and the text
      written reaches the file afterwards.

    The HTTP server answers a given URL the same way throughout a run and
    between runs: it is a function from URLs to answers.

    The server setup script [init-server.py] is embedded the same way in
    the module [InitServer], over the questions it asks the operator and
    the calls it makes on the remote host. *)

From Stdlib Require Import ZArith Lia Ascii String Sorted.
From stdpp Require Import base strings list gmap fin_maps.

Local Open Scope string_scope.
Local Open Scope list_scope.

(** ** Python string library functions used by the source *)

Module Py.

(** Characters are 8-bit code points.  [str.isspace] on that range:
    TAB..CR, FS..US, SPACE, NEL and NBSP. *)
Definition isspace (c : ascii) : bool :=
  let n := Ascii.N_of_ascii c in
  ((9 <=? n) && (n <=? 13) || (28 <=? n) && (n <=? 32)
   || (n =? 133) || (n =? 160))%N.

Definition LF : ascii := "010"%char.
Definition CR : ascii := "013"%char.

(** [str.lstrip()] *)
Fixpoint lstrip (s : string) : string :=
  match s with
  | EmptyString => EmptyString
  | String c s' => if isspace c then lstrip s' else s
  end.

(** [str.rstrip()] *)
Fixpoint rstrip (s : string) : string :=
  match s with
  | EmptyString => EmptyString
  | String c s' =>
      match rstrip s' with
      | EmptyString => if isspace c then EmptyString else String c EmptyString
      | r => String c r
      end
  end.

(** [str.strip()] *)
Definition strip (s : string) : string := rstrip (lstrip s).

(** Text-mode reading with the default [newline=None]: universal
    newlines, every CR LF pair and every lone CR is returned as LF. *)
Fixpoint universal_newlines (s : string) : string :=
  match s with
  | EmptyString => EmptyString
  | String c s' =>
      if Ascii.eqb c CR then
        match s' with
        | String c' s'' =>
            if Ascii.eqb c' LF then String LF (universal_newlines s'')
            else String LF (universal_newlines s')
        | EmptyString => String LF EmptyString
        end
      else String c (universal_newlines s')
  end.

(** Shape predicates on texts, used to state the properties. *)
Definition starts_space (s : string) : bool :=
  match s with String c _ => isspace c | EmptyString => false end.

Fixpoint ends_space (s : string) : bool :=
  match s with
  | EmptyString => false
  | String c s' =>
      match s' with EmptyString => isspace c | _ => ends_space s' end
  end.

Fixpoint only_space (s : string) : bool :=
  match s with
  | EmptyString => true
  | String c s' => isspace c && only_space s'
  end.

Fixpoint has_cr (s : string) : bool :=
  match s with
  | EmptyString => false
  | String c s' => Ascii.eqb c CR || has_cr s'
  end.

End Py.

(** ** The environment: HTTP server and file system *)

(** What [requests.get(url)] does: raise (connection error, timeout, ...)
    or return a response object with a status code and a decoded body. *)
Record Response := { status_code : Z; text : string }.

Inductive get_result :=
| GetRaises
| GetReturns (r : Response).

(** The file system maps the path of every existing regular file to its
    text.  Distinct path strings name distinct files. *)
Abbreviation files := (gmap string string).

Inductive exn :=
| RequestException    (* raised by requests.get *)
| HTTPError           (* raised by Response.raise_for_status *)
| FileNotFoundError.  (* raised by open(path) and Path.unlink on a missing file *)

(** ** Programs *)

Inductive prog (A : Type) : Type :=
| Ret (a : A)
| Raise (e : exn)
| RequestsGet (url : string) (k : Response -> prog A)
| PathExists (p : string) (k : bool -> prog A)
| OpenRead (p : string) (k : string -> prog A)      (* with open(p) as fp: fp.read() *)
| PathUnlink (p : string) (k : prog A)
| OpenWrite (p : string) (k : prog A)               (* open(p, 'w') *)
| FpWrite (p : string) (s : string) (k : prog A)    (* fp.write(s), flushed on leaving the with block *)
| PrintOut (s : string) (k : prog A).

Arguments Ret {A} a.
Arguments Raise {A} e.
Arguments RequestsGet {A} url k.
Arguments PathExists {A} p k.
Arguments OpenRead {A} p k.
Arguments PathUnlink {A} p k.
Arguments OpenWrite {A} p k.
Arguments FpWrite {A} p s k.
Arguments PrintOut {A} s k.

Fixpoint bind {A B} (m : prog A) (f : A -> prog B) : prog B :=
  match m with
  | Ret a => f a
  | Raise e => Raise e
  | RequestsGet url k => RequestsGet url (fun r => bind (k r) f)
  | PathExists p k => PathExists p (fun b => bind (k b) f)
  | OpenRead p k => OpenRead p (fun s => bind (k s) f)
  | PathUnlink p k => PathUnlink p (bind k f)
  | OpenWrite p k => OpenWrite p (bind k f)
  | FpWrite p s k => FpWrite p s (bind k f)
  | PrintOut s k => PrintOut s (bind k f)
  end.

Notation "x <~ m ; k" := (bind m (fun x => k))
  (at level 100, m at next level, right associativity, only parsing).
Notation "m ;;; k" := (bind m (fun _ => k))
  (at level 100, right associativity, only parsing).

Definition requests_get (url : string) : prog Response := RequestsGet url Ret.
Definition path_exists (p : string) : prog bool := PathExists p Ret.
Definition open_read (p : string) : prog string := OpenRead p Ret.
Definition path_unlink (p : string) : prog unit := PathUnlink p (Ret tt).
Definition open_write (p : string) : prog unit := OpenWrite p (Ret tt).
Definition fp_write (p s : string) : prog unit := FpWrite p s (Ret tt).
Definition print (s : string) : prog unit := PrintOut s (Ret tt).

(** [Response.raise_for_status]: client and server error codes raise. *)
Definition is_error (r : Response) : bool :=
  ((400 <=? status_code r) && (status_code r <? 600))%Z.

Definition raise_for_status (r : Response) : prog unit :=
  if is_error r then Raise HTTPError else Ret tt.

(** ** deploy_tileset *)

Definition version_url (area : string) : string :=
  "https://assets.openfreemap.com/versions/deployed_tiles_" +:+ area +:+ ".txt".

Definition local_version_file (area : string) : string :=
  "/data/ofm/config/deployed_tiles_" +:+ area +:+ ".txt".

Definition mnt_file (area remote_version : string) : string :=
  "/mnt/ofm/" +:+ area +:+ "-" +:+ remote_version +:+ "/metadata.json".

(** One iteration of the [for area in ...] loop; [continue] ends the
    iteration with the current value of [need_nginx_sync]. *)
Definition loop_body (area : string) (need_nginx_sync : bool) : prog bool :=
  r <~ requests_get (version_url area);
  raise_for_status r ;;;
  let remote_version := Py.strip (text r) in
  print ("  remote version for " +:+ area +:+ ": " +:+ remote_version) ;;;
  present <~ path_exists (local_version_file area);
  local_version_start <~
    (if negb present then Ret None
     else s <~ open_read (local_version_file area); Ret (Some s));
  if decide (remote_version = "") then
    print "  remote version not specified" ;;;
    match local_version_start with
    | Some _ => path_unlink (local_version_file area) ;;; Ret true
    | None => Ret need_nginx_sync
    end
  else
    mounted <~ path_exists (mnt_file area remote_version);
    if negb mounted then
      print "  local version does not exist" ;;;
      match local_version_start with
      | Some _ => path_unlink (local_version_file area) ;;; Ret true
      | None => Ret need_nginx_sync
      end
    else
      if decide (Some remote_version ≠ local_version_start) then
        open_write (local_version_file area) ;;;
        fp_write (local_version_file area) remote_version ;;;
        Ret true
      else Ret need_nginx_sync.

Fixpoint for_areas (areas : list string) (need_nginx_sync : bool) : prog bool :=
  match areas with
  | [] => Ret need_nginx_sync
  | area :: rest =>
      need_nginx_sync' <~ loop_body area need_nginx_sync;
      for_areas rest need_nginx_sync'
  end.

Definition areas : list string := ["planet"; "monaco"].

Definition deploy_tileset : prog bool := for_areas areas false.

(** ** Running a program *)

Inductive event :=
| EvGet (url : string) (res : get_result)
| EvExists (p : string) (b : bool)
| EvRead (p : string)
| EvUnlink (p : string)
| EvOpenW (p : string)
| EvWrite (p : string) (s : string)
| EvPrint (s : string).

(** One performed operation and the file system right after it: the state
    a crash at that point leaves behind. *)
Record step := Step { ev : event; post : files }.

Inductive outcome (A : Type) :=
| Returned (a : A)
| Raised (e : exn).
Arguments Returned {A} a.
Arguments Raised {A} e.

Record result (A : Type) :=
  Result { res : outcome A; final : files; trace : list step }.
Arguments Result {A} res final trace.
Arguments res {A} r.
Arguments final {A} r.
Arguments trace {A} r.

Definition after {A} (e : event) (fs : files) (r : result A) : result A :=
  Result (res r) (final r) (Step e fs :: trace r).

Definition failed {A} (x : exn) (e : event) (fs : files) : result A :=
  Result (Raised x) fs [Step e fs].

Section Exec.

(** The HTTP server: what a GET of each URL does. *)
Variable remote : string -> get_result.

Fixpoint exec {A} (m : prog A) (fs : files) : result A :=
  match m with
  | Ret a => Result (Returned a) fs []
  | Raise e => Result (Raised e) fs []
  | RequestsGet url k =>
      match remote url with
      | GetRaises => failed RequestException (EvGet url GetRaises) fs
      | GetReturns r => after (EvGet url (GetReturns r)) fs (exec (k r) fs)
      end
  | PathExists p k =>
      let b := bool_decide (is_Some (fs !! p)) in
      after (EvExists p b) fs (exec (k b) fs)
  | OpenRead p k =>
      match fs !! p with
      | None => failed FileNotFoundError (EvRead p) fs
      | Some s => after (EvRead p) fs (exec (k (Py.universal_newlines s)) fs)
      end
  | PathUnlink p k =>
      match fs !! p with
      | None => failed FileNotFoundError (EvUnlink p) fs
      | Some _ => after (EvUnlink p) (delete p fs) (exec k (delete p fs))
      end
  | OpenWrite p k =>
      after (EvOpenW p) (<[p := ""]> fs) (exec k (<[p := ""]> fs))
  | FpWrite p s k =>
      let fs' := <[p := default "" (fs !! p) +:+ s]> fs in
      after (EvWrite p s) fs' (exec k fs')
  | PrintOut s k => after (EvPrint s) fs (exec k fs)
  end.

End Exec.

Definition events {A} (r : result A) : list event := ev <$> trace r.

(** File systems a crash during the run can leave behind. *)
Definition crash_states {A} (fs : files) (r : result A) : list files :=
  fs :: (post <$> trace r).

(** ** Symbolic execution of one loop iteration

    [body_view] lists the eight ways an iteration can go, each with the
    result the interpreter computes for it. *)

Section BodyView.

Variable remote : string -> get_result.
Variables (area : string) (need_nginx_sync : bool) (fs : files).

(** Operations up to and including the read of the local record. *)
Definition lookup_trace (r : Response) : list step :=
  Step (EvGet (version_url area) (GetReturns r)) fs
  :: Step (EvPrint ("  remote version for " +:+ area +:+ ": "
                    +:+ Py.strip (text r))) fs
  :: Step (EvExists (local_version_file area)
             (bool_decide (is_Some (fs !! local_version_file area)))) fs
  :: match fs !! local_version_file area with
     | Some _ => [Step (EvRead (local_version_file area)) fs]
     | None => []
     end.

Inductive body_view : result bool -> Prop :=
| BodyGetRaises :
    remote (version_url area) = GetRaises ->
    body_view (Result (Raised RequestException) fs
                 [Step (EvGet (version_url area) GetRaises) fs])
| BodyHttpError r :
    remote (version_url area) = GetReturns r -> is_error r = true ->
    body_view (Result (Raised HTTPError) fs
                 [Step (EvGet (version_url area) (GetReturns r)) fs])
| BodyEmptyRetire r c :
    remote (version_url area) = GetReturns r -> is_error r = false ->
    Py.strip (text r) = "" ->
    fs !! local_version_file area = Some c ->
    body_view (Result (Returned true) (delete (local_version_file area) fs)
                 (lookup_trace r ++
                  [Step (EvPrint "  remote version not specified") fs;
                   Step (EvUnlink (local_version_file area)) (delete (local_version_file area) fs)]))
| BodyEmptyNoop r :
    remote (version_url area) = GetReturns r -> is_error r = false ->
    Py.strip (text r) = "" ->
    fs !! local_version_file area = None ->
    body_view (Result (Returned need_nginx_sync) fs
                 (lookup_trace r ++
                  [Step (EvPrint "  remote version not specified") fs]))
| BodyMissingRetire r c :
    remote (version_url area) = GetReturns r -> is_error r = false ->
    Py.strip (text r) <> "" ->
    fs !! mnt_file area (Py.strip (text r)) = None ->
    fs !! local_version_file area = Some c ->
    body_view (Result (Returned true) (delete (local_version_file area) fs)
                 (lookup_trace r ++
                  [Step (EvExists (mnt_file area (Py.strip (text r))) false) fs;
                   Step (EvPrint "  local version does not exist") fs;
                   Step (EvUnlink (local_version_file area)) (delete (local_version_file area) fs)]))
| BodyMissingNoop r :
    remote (version_url area) = GetReturns r -> is_error r = false ->
    Py.strip (text r) <> "" ->
    fs !! mnt_file area (Py.strip (text r)) = None ->
    fs !! local_version_file area = None ->
    body_view (Result (Returned need_nginx_sync) fs
                 (lookup_trace r ++
                  [Step (EvExists (mnt_file area (Py.strip (text r))) false) fs;
                   Step (EvPrint "  local version does not exist") fs]))
| BodyAdopt r :
    remote (version_url area) = GetReturns r -> is_error r = false ->
    Py.strip (text r) <> "" ->
    is_Some (fs !! mnt_file area (Py.strip (text r))) ->
    Py.universal_newlines <$> fs !! local_version_file area <> Some (Py.strip (text r)) ->
    body_view (Result (Returned true) (<[local_version_file area := Py.strip (text r)]> fs)
                 (lookup_trace r ++
                  [Step (EvExists (mnt_file area (Py.strip (text r))) true) fs;
                   Step (EvOpenW (local_version_file area)) (<[local_version_file area := ""]> fs);
                   Step (EvWrite (local_version_file area) (Py.strip (text r)))
                     (<[local_version_file area := Py.strip (text r)]> fs)]))
| BodySame r :
    remote (version_url area) = GetReturns r -> is_error r = false ->
    Py.strip (text r) <> "" ->
    is_Some (fs !! mnt_file area (Py.strip (text r))) ->
    Py.universal_newlines <$> fs !! local_version_file area = Some (Py.strip (text r)) ->
    body_view (Result (Returned need_nginx_sync) fs
                 (lookup_trace r ++
                  [Step (EvExists (mnt_file area (Py.strip (text r))) true) fs])).

End BodyView.

(** ** Vocabulary of the properties *)

(** The lookup for [area] completes: [requests.get] returns a response
    and [raise_for_status] accepts it. *)
Definition lookup_ok (remote : string -> get_result) (area : string) : Prop :=
  exists r, remote (version_url area) = GetReturns r /\ is_error r = false.

(** The lookup for [area] raises [e]. *)
Definition lookup_raises (remote : string -> get_result) (area : string)
    (e : exn) : Prop :=
  (remote (version_url area) = GetRaises /\ e = RequestException)
  \/ (exists r, remote (version_url area) = GetReturns r
                /\ is_error r = true /\ e = HTTPError).

(** Operations that modify the file system. *)
Definition store_change (e : event) : bool :=
  match e with
  | EvUnlink _ | EvOpenW _ | EvWrite _ _ => true
  | _ => false
  end.

(** [e] creates, updates or deletes the local version record of [area]. *)
Definition record_event (area : string) (e : event) : Prop :=
  e = EvUnlink (local_version_file area)
  \/ e = EvOpenW (local_version_file area)
  \/ exists v, e = EvWrite (local_version_file area) v.

(** The local record of [area] already agrees with the server and the
    mounted artifacts: no record when nothing can be adopted, otherwise a
    record that reads back as the remote version. *)
Definition settled (remote : string -> get_result) (fs : files)
    (area : string) : Prop :=
  exists r,
    remote (version_url area) = GetReturns r /\ is_error r = false /\
    if decide (Py.strip (text r) <> ""
               /\ is_Some (fs !! mnt_file area (Py.strip (text r))))
    then Py.universal_newlines <$> fs !! local_version_file area
         = Some (Py.strip (text r))
    else fs !! local_version_file area = None.

(** Every remote version whose artifact is mounted is free of carriage
    returns. *)
Definition mounted_versions_cr_free (remote : string -> get_result)
    (fs : files) (l : list string) : Prop :=
  forall area r,
    area ∈ l ->
    remote (version_url area) = GetReturns r ->
    is_Some (fs !! mnt_file area (Py.strip (text r))) ->
    Py.has_cr (Py.strip (text r)) = false.

(** What must have been seen before a store operation [e]: a write of
    version [v] into an area's record needs a positive availability check
    of that area and version among the earlier events [seen]. *)
Definition write_checked (seen : list event) (e : event) : Prop :=
  match e with
  | EvWrite p v =>
      exists a, p = local_version_file a
                /\ EvExists (mnt_file a v) true ∈ seen
  | EvOpenW p =>
      exists a v, p = local_version_file a
                  /\ EvExists (mnt_file a v) true ∈ seen
  | _ => True
  end.

Definition writes_checked (evs : list event) : Prop :=
  forall l1 e l2, evs = l1 ++ e :: l2 -> write_checked l1 e.

(** The contents the record of [area] can have at any point of a run that
    started in [fs]. *)
Definition record_states (remote : string -> get_result) (fs : files)
    (area : string) (o : option string) : Prop :=
  o = fs !! local_version_file area
  \/ o = None
  \/ o = Some ""
  \/ exists r, remote (version_url area) = GetReturns r
               /\ o = Some (Py.strip (text r)).

(** [e] is an operation of the iteration for [area]. *)
Definition event_of_area (area : string) (e : event) : Prop :=
  match e with
  | EvGet url _ => url = version_url area
  | EvExists p _ =>
      p = local_version_file area \/ exists v, p = mnt_file area v
  | EvRead p | EvUnlink p | EvOpenW p | EvWrite p _ =>
      p = local_version_file area
  | EvPrint _ => True
  end.

Arguments lookup_trace : simpl never.

(** ** Concrete servers and file systems used in the examples *)

Module Scenario.

Definition ok (body : string) : get_result :=
  GetReturns {| status_code := 200; text := body |}.

(** A server that answers the two version URLs and nothing else. *)
Definition serve (planet monaco : get_result) (url : string) : get_result :=
  if decide (url = version_url "planet") then planet
  else if decide (url = version_url "monaco") then monaco
  else GetReturns {| status_code := 404; text := "" |}.

Definition marker : string := "{}".

(** The lookup for planet fails; monaco has a new version "v7" mounted and
    no local record yet. *)
Definition planet_down : string -> get_result := serve GetRaises (ok "v7").
Definition monaco_ready : files := {[ mnt_file "monaco" "v7" := marker ]}.

(** Planet has a new version "v7" mounted; the lookup for monaco fails. *)
Definition monaco_down : string -> get_result := serve (ok "v7") GetRaises.
Definition planet_ready : files := {[ mnt_file "planet" "v7" := marker ]}.

(** Planet has record "v3"; the server announces "v4", which is not mounted;
    nothing is published for monaco. *)
Definition planet_v4 : string -> get_result := serve (ok "v4") (ok "").
Definition planet_at_v3 : files := {[ local_version_file "planet" := "v3" ]}.

(** Nothing is published for either area; monaco has record "v5". *)
Definition nothing_published : string -> get_result := serve (ok "") (ok "").
Definition monaco_at_v5 : files := {[ local_version_file "monaco" := "v5" ]}.

(** The server announces "v3" for planet; the record holds "v3" followed by
    a newline. *)
Definition planet_v3 : string -> get_result := serve (ok "v3") (ok "").
Definition v3_newline : string := String "v" (String "3" (String Py.LF "")).
Definition planet_padded : files :=
  {[ local_version_file "planet" := v3_newline ]}.
Definition planet_padded_mounted : files :=
  {[ local_version_file "planet" := v3_newline;
     mnt_file "planet" "v3" := marker ]}.

(** The server announces a two-line version for planet, its artifact is
    mounted, and the record holds the same two lines separated by a carriage
    return instead of the line feed. *)
Definition lf_version : string := String "a" (String Py.LF (String "b" "")).
Definition planet_lf : string -> get_result := serve (ok lf_version) (ok "").
Definition planet_cr_record : files :=
  {[ local_version_file "planet" := String "a" (String Py.CR (String "b" ""));
     mnt_file "planet" lf_version := marker ]}.

(** Planet is announced at "v7" (mounted in [planet_ready]); nothing is
    published for monaco. *)
Definition planet_v7 : string -> get_result := serve (ok "v7") (ok "").

(** Planet has record "v3" and the announced "v4" is mounted. *)
Definition planet_v4_mounted : files :=
  {[ local_version_file "planet" := "v3";
     mnt_file "planet" "v4" := marker ]}.

(** A version with a carriage return in the middle, announced for planet and
    mounted. *)
Definition cr_version : string := String "a" (String Py.CR (String "b" "")).
Definition planet_cr : string -> get_result := serve (ok cr_version) (ok "").
Definition planet_cr_mounted : files :=
  {[ mnt_file "planet" cr_version := marker ]}.

End Scenario.

(** ** The reconciliation as a function *)

(** What an iteration does to the record of its area. *)
Inductive action :=
| Keep
| Retire
| Adopt (v : string).

(** The action for [area], read off the server's answer, the record and the
    marker file; no action when the lookup raises. *)
Definition decide_area (remote : string -> get_result) (fs : files)
    (area : string) : option action :=
  match remote (version_url area) with
  | GetRaises => None
  | GetReturns r =>
      if is_error r then None
      else
        let v := Py.strip (text r) in
        let old := fs !! local_version_file area in
        let retire := match old with Some _ => Retire | None => Keep end in
        Some (if decide (v = "") then retire
              else if bool_decide (is_Some (fs !! mnt_file area v)) then
                     if decide (Some v ≠ Py.universal_newlines <$> old)
                     then Adopt v else Keep
                   else retire)
  end.

Definition plan (remote : string -> get_result) (fs : files)
    (area : string) : action :=
  default Keep (decide_area remote fs area).

Definition apply_action (area : string) (act : action) (fs : files) : files :=
  match act with
  | Keep => fs
  | Retire => delete (local_version_file area) fs
  | Adopt v => <[local_version_file area := v]> fs
  end.

(** What an action leaves in the record it acts on. *)
Definition record_after (act : action) (old : option string) : option string :=
  match act with
  | Keep => old
  | Retire => None
  | Adopt v => Some v
  end.

Definition changed (act : action) : bool :=
  match act with Keep => false | _ => true end.

(** Every area's action, planned on the initial file system, applied in
    turn. *)
Definition reconcile (remote : string -> get_result) (fs : files)
    (l : list string) : files :=
  foldl (fun acc area => apply_action area (plan remote fs area) acc) fs l.

Definition any_change (remote : string -> get_result) (fs : files)
    (l : list string) : bool :=
  existsb (fun area => changed (plan remote fs area)) l.

(** What the record can hold while its action is under way: the old
    content, the content the action leaves, or, during an adoption, the
    empty text. *)
Definition record_during (act : action) (old o : option string) : Prop :=
  o = old \/ o = record_after act old \/ (exists v, act = Adopt v /\ o = Some "").

(** ** Further concrete servers and file systems *)

Module Example.

(** The answers of [Scenario.planet_v7] wrapped in whitespace. *)
Definition planet_v7_padded : string -> get_result :=
  Scenario.serve
    (Scenario.ok (String " " (String "v" (String "7" (String Py.LF "")))))
    (Scenario.ok (String Py.LF "")).

(** The file system of [Scenario.planet_v4_mounted] caught between the
    opening of the record of planet and the write into it. *)
Definition planet_truncated : files :=
  {[ local_version_file "planet" := "";
     mnt_file "planet" "v4" := Scenario.marker ]}.

(** Planet is at "v7", announced and mounted. *)
Definition planet_at_v7 : files :=
  {[ local_version_file "planet" := "v7";
     mnt_file "planet" "v7" := Scenario.marker ]}.

End Example.

(** ** init-server.py

    Source: [init-server.py].  The script asks the operator questions
    ([click.confirm]), reads one key of a dotenv file, builds a [fabric]
    connection and calls functions of [ssh_lib] on it.  Those functions are
    not part of the sources at hand: a call is an operation of the program,
    recorded with its arguments, that returns or raises.  The directories of
    [ssh_lib.config] are parameters.

    The operator answers every question ([click.confirm] returns), reading
    the dotenv file and building the connection do not raise, and a path
    joined with [/] is the text of its parts separated by a slash. *)

Module InitServer.

(** The constants imported from [ssh_lib.config], as the text of their
    paths. *)
Record config := {
  CONFIG_DIR : string;
  REMOTE_CONFIG : string;
  SCRIPTS_DIR : string;
  TILE_GEN_BIN : string
}.

(** [a / b] on paths and ["{a}/b"] in f-strings. *)
Definition slash (a b : string) : string := a +:+ "/" +:+ b.

(** [fabric.Connection(host, user, port, connect_kwargs, config)]:
    [connect_password] is the password of [connect_kwargs], [sudo_password]
    the one of the [Config] overrides. *)
Record connection := {
  host : string;
  user : option string;
  port : option Z;
  connect_password : option string;
  sudo_password : option string
}.

(** The calls on a connection, each with the arguments the script passes;
    [create_parent_dir] is [None] where the script leaves it out. *)
Inductive call :=
| AddUser (name : string) (uid : Z)
| EnableSudo (name : string) (nopasswd : bool)
| PkgUpgrade
| PkgBase
| SetupKernelSettings
| SetCpuGovernor
| InstallPlanetiler
| InstallRclone
| Put (src dst permissions : string) (create_parent_dir : option bool)
| Sudo (cmd : string)
| SudoCmd (cmd user : string)
| Nginx
| Certbot
| C1000k
| Reboot.

Inductive script (A : Type) : Type :=
| Done (a : A)
| Confirm (text : string) (k : bool -> script A)                (* click.confirm *)
| DotenvGet (path key : string) (k : option string -> script A) (* dotenv_values(path).get(key) *)
| LocalExists (p : string) (k : bool -> script A)               (* Path.exists *)
| Call (c : connection) (f : call) (k : script A)
| SysExit.                                                    (* sys.exit() *)

Arguments Done {A} a.
Arguments Confirm {A} text k.
Arguments DotenvGet {A} path key k.
Arguments LocalExists {A} p k.
Arguments Call {A} c f k.
Arguments SysExit {A}.

Fixpoint andthen {A B} (m : script A) (f : A -> script B) : script B :=
  match m with
  | Done a => f a
  | Confirm text k => Confirm text (fun b => andthen (k b) f)
  | DotenvGet path key k => DotenvGet path key (fun v => andthen (k v) f)
  | LocalExists p k => LocalExists p (fun b => andthen (k b) f)
  | Call c g k => Call c g (andthen k f)
  | SysExit => SysExit
  end.

Declare Scope init_scope.
Delimit Scope init_scope with init.
Notation "x <~ m ; k" := (andthen m (fun x => k))
  (at level 100, m at next level, right associativity, only parsing)
  : init_scope.
Notation "m ;;; k" := (andthen m (fun _ => k))
  (at level 100, right associativity, only parsing) : init_scope.
Local Open Scope init_scope.

Definition confirm (text : string) : script bool := Confirm text Done.
Definition dotenv_get (path key : string) : script (option string) :=
  DotenvGet path key Done.
Definition local_exists (p : string) : script bool := LocalExists p Done.
Definition call_on (c : connection) (f : call) : script unit :=
  Call c f (Done tt).
Definition sys_exit {A} : script A := SysExit.

(** [for x in xs: body] *)
Fixpoint for_each {X} (xs : list X) (body : X -> script unit) : script unit :=
  match xs with
  | [] => Done tt
  | x :: rest => body x ;;; for_each rest body
  end.

Definition prepare_shared (c : connection) : script unit :=
  call_on c (AddUser "ofm" 2000) ;;;
  call_on c (EnableSudo "ofm" true) ;;;
  call_on c PkgUpgrade ;;;
  call_on c PkgBase ;;;
  call_on c SetupKernelSettings ;;;
  call_on c SetCpuGovernor.

(** The scripts uploaded by [prepare_tile_gen] and by [debug_tmp]. *)
Definition tile_gen_scripts : list string :=
  ["extract_btrfs.sh"; "planetiler_monaco.sh"; "planetiler_planet.sh";
   "prepare-virtualenv.sh"; "upload_cloudflare.sh"].

Definition put_script (cfg : config) (c : connection) (file : string)
    : script unit :=
  call_on c (Put (slash (slash (SCRIPTS_DIR cfg) "tile_gen") file)
               (TILE_GEN_BIN cfg) "755" None).

Definition prepare_tile_gen (cfg : config) (c : connection) : script unit :=
  call_on c InstallPlanetiler ;;;
  call_on c InstallRclone ;;;
  for_each tile_gen_scripts (put_script cfg c) ;;;
  call_on c (Put (slash (slash (slash (SCRIPTS_DIR cfg) "tile_gen")
                           "extract_mbtiles") "extract_mbtiles.py")
               (TILE_GEN_BIN cfg +:+ "/extract_mbtiles/extract_mbtiles.py")
               "755" (Some true)) ;;;
  call_on c (Put (slash (slash (slash (SCRIPTS_DIR cfg) "tile_gen")
                           "shrink_btrfs") "shrink_btrfs.py")
               (TILE_GEN_BIN cfg +:+ "/shrink_btrfs/shrink_btrfs.py")
               "755" (Some true)) ;;;
  present <~ local_exists (slash (CONFIG_DIR cfg) "rclone.conf");
  (if present : bool then
     call_on c (Put (slash (CONFIG_DIR cfg) "rclone.conf")
                  (REMOTE_CONFIG cfg +:+ "/rclone.conf") "600" (Some true))
   else Done tt) ;;;
  call_on c (Sudo "chown ofm:ofm /data/ofm") ;;;
  call_on c (Sudo "chown -R ofm:ofm /data/ofm/tile_gen") ;;;
  call_on c (Sudo "chown -R ofm:ofm /data/ofm/config") ;;;
  call_on c (SudoCmd ("cd " +:+ TILE_GEN_BIN cfg
                      +:+ " && source prepare-virtualenv.sh") "ofm").

Definition prepare_http_host (c : connection) : script unit :=
  call_on c Nginx ;;;
  call_on c Certbot ;;;
  call_on c C1000k.

Definition debug_tmp (cfg : config) (c : connection) : script unit :=
  for_each tile_gen_scripts (put_script cfg c).

(** Truth value of [ssh_passwd]: [None] and the empty text are false. *)
Definition truthy (v : option string) : bool :=
  match v with
  | Some s => negb (String.eqb s "")
  | None => false
  end.

Definition connect (hostname : string) (user : option string)
    (port : option Z) (ssh_passwd : option string) : connection :=
  if truthy ssh_passwd then
    {| host := hostname; user := user; port := port;
       connect_password := ssh_passwd; sudo_password := ssh_passwd |}
  else
    {| host := hostname; user := user; port := port;
       connect_password := None; sudo_password := None |}.

Definition run_prompt (hostname : string) : string :=
  "Run script on " +:+ hostname +:+ "?".
Definition tile_gen_prompt : string :=
  "Would you like to install tile-gen task?".
Definition http_host_prompt : string :=
  "Would you like to install http-host task?".

(** [main] from the point where the tasks are known. *)
Definition install (cfg : config) (hostname : string) (user : option string)
    (port : option Z) (tile_gen http_host skip_shared do_reboot debug : bool)
    : script unit :=
  ssh_passwd <~ dotenv_get (CONFIG_DIR cfg +:+ "/.env") "SSH_PASSWD";
  let c := connect hostname user port ssh_passwd in
  if debug then
    debug_tmp cfg c ;;; sys_exit
  else
    (if negb skip_shared then prepare_shared c else Done tt) ;;;
    (if tile_gen then prepare_tile_gen cfg c else Done tt) ;;;
    (if http_host then prepare_http_host c else Done tt) ;;;
    (if do_reboot then call_on c Reboot else Done tt).

Definition main (cfg : config) (hostname : string) (user : option string)
    (port : option Z) (tile_gen http_host skip_shared do_reboot debug : bool)
    : script unit :=
  declined <~ (if negb debug
               then ok <~ confirm (run_prompt hostname); Done (negb ok)
               else Done false);
  if declined : bool then Done tt
  else if negb tile_gen && negb http_host && negb debug then
    tile_gen <~ confirm tile_gen_prompt;
    http_host <~ confirm http_host_prompt;
    if negb tile_gen && negb http_host then Done tt
    else install cfg hostname user port tile_gen http_host skip_shared
           do_reboot debug
  else install cfg hostname user port tile_gen http_host skip_shared
         do_reboot debug.

(** *** Running the script *)

(** The operator, the dotenv file, the local files and the remote host:
    the answer to each question, the value of a key of a dotenv file, whether
    a local path exists, and whether a call on the host raises. *)
Record env := {
  confirm_answer : string -> bool;
  dotenv_value : string -> string -> option string;
  file_exists : string -> bool;
  call_raises : connection -> call -> bool
}.

Inductive entry :=
| EvConfirm (text : string) (answer : bool)
| EvDotenv (path key : string) (value : option string)
| EvLocalExists (p : string) (b : bool)
| EvCall (c : connection) (f : call)
| EvExit.

Inductive ending (A : Type) :=
| Finished (a : A)
| Failed (c : connection) (f : call)   (* the call raised *)
| Exited.                              (* SystemExit *)
Arguments Finished {A} a.
Arguments Failed {A} c f.
Arguments Exited {A}.

Fixpoint run {A} (e : env) (m : script A) : ending A * list entry :=
  match m with
  | Done a => (Finished a, [])
  | Confirm text k =>
      let b := confirm_answer e text in
      let '(o, t) := run e (k b) in (o, EvConfirm text b :: t)
  | DotenvGet path key k =>
      let v := dotenv_value e path key in
      let '(o, t) := run e (k v) in (o, EvDotenv path key v :: t)
  | LocalExists p k =>
      let b := file_exists e p in
      let '(o, t) := run e (k b) in (o, EvLocalExists p b :: t)
  | Call c f k =>
      if call_raises e c f then (Failed c f, [EvCall c f])
      else let '(o, t) := run e k in (o, EvCall c f :: t)
  | SysExit => (Exited, [EvExit])
  end.

(** The same environment with a remote host on which every call
    succeeds. *)
Definition no_failure (e : env) : env :=
  {| confirm_answer := confirm_answer e;
     dotenv_value := dotenv_value e;
     file_exists := file_exists e;
     call_raises := fun _ _ => false |}.

(** The task a call belongs to. *)
Inductive task := Shared | TileGen | HttpHost | RebootHost.

Definition task_of (f : call) : task :=
  match f with
  | AddUser _ _ | EnableSudo _ _ | PkgUpgrade | PkgBase
  | SetupKernelSettings | SetCpuGovernor => Shared
  | InstallPlanetiler | InstallRclone | Put _ _ _ _ | Sudo _ | SudoCmd _ _ =>
      TileGen
  | Nginx | Certbot | C1000k => HttpHost
  | Reboot => RebootHost
  end.

(** The tasks [main] goes on with: the flags of the command line, or the
    operator's answers when neither task flag is given. *)
Definition chosen_tile_gen (e : env) (tile_gen http_host : bool) : bool :=
  if negb tile_gen && negb http_host
  then confirm_answer e tile_gen_prompt else tile_gen.

Definition chosen_http_host (e : env) (tile_gen http_host : bool) : bool :=
  if negb tile_gen && negb http_host
  then confirm_answer e http_host_prompt else http_host.

(** Whether a run with these flags and answers includes the task. *)
Definition selected (e : env) (tile_gen http_host skip_shared do_reboot : bool)
    (t : task) : bool :=
  match t with
  | Shared => negb skip_shared
  | TileGen => chosen_tile_gen e tile_gen http_host
  | HttpHost => chosen_http_host e tile_gen http_host
  | RebootHost => do_reboot
  end.

(** The order of the tasks in [main]. *)
Definition task_rank (t : task) : nat :=
  match t with
  | Shared => 0
  | TileGen => 1
  | HttpHost => 2
  | RebootHost => 3
  end.

Definition is_reboot (ev : entry) : bool :=
  match ev with
  | EvCall _ Reboot => true
  | _ => false
  end.

(** The relation between an earlier and a later event of a run: calls come
    in the order of their tasks. *)
Definition in_task_order (ev1 ev2 : entry) : Prop :=
  match ev1, ev2 with
  | EvCall _ f1, EvCall _ f2 =>
      task_rank (task_of f1) <= task_rank (task_of f2)
  | _, _ => True
  end.

Module Sample.

Definition cfg : config :=
  {| CONFIG_DIR := "/repo/config";
     REMOTE_CONFIG := "/data/ofm/config";
     SCRIPTS_DIR := "/repo/scripts";
     TILE_GEN_BIN := "/data/ofm/tile_gen/bin" |}.

(** An operator who agrees to everything, a password in the dotenv file,
    an [rclone.conf] at hand and a host on which every call succeeds. *)
Definition willing : env :=
  {| confirm_answer := fun _ => true;
     dotenv_value := fun _ _ => Some "secret";
     file_exists := fun _ => true;
     call_raises := fun _ _ => false |}.

Definition conn : connection :=
  connect "example.org" None None (Some "secret").

End Sample.

End InitServer.

(** * Lemmas *)

(** ** Strings *)

Module PyFacts.
Import Py.
Local Arguments String.append !_ _ / : simpl nomatch.

Lemma length_app (a b : string) :
  String.length (a +:+ b) = String.length a + String.length b.
Proof. induction a as [|c a IH]; simpl; [done|]. by rewrite IH. Qed.

Lemma app_inv_tail (a b s : string) : a +:+ s = b +:+ s -> a = b.
Proof.
  revert b. induction a as [|c a IH]; intros [|d b] H; simpl in H.
  - done.
  - apply (f_equal String.length) in H.
    simpl in H. rewrite length_app in H. exfalso; lia.
  - apply (f_equal String.length) in H.
    simpl in H. rewrite length_app in H. exfalso; lia.
  - injection H as -> H. f_equal. by apply IH.
Qed.

(** A text without carriage return reads back as it is ... *)
Lemma universal_newlines_no_cr (s : string) :
  has_cr s = false -> universal_newlines s = s.
Proof.
  induction s as [|c s IH]; simpl; [done|].
  intros [Hc Hs]%orb_false_iff. rewrite Hc. by rewrite IH.
Qed.

(** ... and only then. *)
Lemma universal_newlines_cr (s : string) :
  universal_newlines s = s -> has_cr s = false.
Proof.
  induction s as [|c s IH]; simpl; [done|].
  destruct (Ascii.eqb c CR) eqn:Hc.
  - apply Ascii.eqb_eq in Hc as ->. destruct s as [|c' s]; [done|].
    destruct (Ascii.eqb c' LF); intros [=].
  - intros [=H]. simpl. by apply IH.
Qed.

Lemma starts_space_lstrip (s : string) : starts_space (lstrip s) = false.
Proof.
  induction s as [|c s IH]; simpl; [done|].
  destruct (isspace c) eqn:Hc; [done|]. simpl. done.
Qed.

Lemma starts_space_rstrip (s : string) :
  starts_space s = false -> starts_space (rstrip s) = false.
Proof.
  destruct s as [|c s]; simpl; [done|]. intros Hc.
  destruct (rstrip s); simpl; by rewrite ?Hc.
Qed.

Lemma starts_space_strip (s : string) : starts_space (strip s) = false.
Proof. apply starts_space_rstrip, starts_space_lstrip. Qed.

Lemma ends_space_rstrip (s : string) : ends_space (rstrip s) = false.
Proof.
  induction s as [|c s IH]; simpl; [done|].
  destruct (rstrip s) as [|d r] eqn:Hr.
  - destruct (isspace c) eqn:Hc; simpl; by rewrite ?Hc.
  - done.
Qed.

Lemma ends_space_strip (s : string) : ends_space (strip s) = false.
Proof. apply ends_space_rstrip. Qed.

Lemma ends_space_cons (c : ascii) (s : string) :
  ends_space s = true -> ends_space (String c s) = true.
Proof. by destruct s. Qed.

Lemma starts_space_universal_newlines (s : string) :
  starts_space s = true -> starts_space (universal_newlines s) = true.
Proof.
  destruct s as [|c s]; simpl; [done|]. intros Hc.
  destruct (Ascii.eqb c CR); [|done].
  destruct s as [|c' s]; [done|]. by destruct (Ascii.eqb c' LF).
Qed.

Lemma ends_space_universal_newlines (s : string) :
  ends_space s = true -> ends_space (universal_newlines s) = true.
Proof.
  remember (String.length s) as n eqn:Hn.
  revert s Hn. induction (lt_wf n) as [n _ IH]. intros s -> Hs.
  destruct s as [|c s]; [done|]. simpl.
  destruct (Ascii.eqb c CR) eqn:Hc.
  - destruct s as [|c' s]; [done|].
    destruct (Ascii.eqb c' LF) eqn:Hc'.
    + apply Ascii.eqb_eq in Hc' as ->.
      destruct s as [|c'' s]; [done|].
      apply ends_space_cons. eapply IH; [|done|done]. simpl; lia.
    + apply ends_space_cons. eapply IH; [|done|done]. simpl; lia.
  - destruct s as [|c' s]; [done|].
    apply ends_space_cons. eapply IH; [|done|done]. simpl; lia.
Qed.

Lemma starts_space_app (l x : string) :
  only_space l = true -> l <> "" -> starts_space (l +:+ x) = true.
Proof.
  intros Hl Hne. destruct l as [|c l]; [done|]. simpl in *.
  by destruct (isspace c).
Qed.

Lemma ends_space_only_space (r : string) :
  only_space r = true -> r <> "" -> ends_space r = true.
Proof.
  induction r as [|c r IH]; [done|]. simpl. intros Hr _.
  destruct (isspace c) eqn:Hc; [|done]. simpl in Hr.
  destruct r as [|d r]; [done|]. by apply IH.
Qed.

Lemma ends_space_app (x r : string) :
  only_space r = true -> r <> "" -> ends_space (x +:+ r) = true.
Proof.
  intros Hr Hne. induction x as [|c x IH]; simpl.
  - by apply ends_space_only_space.
  - by apply ends_space_cons.
Qed.

(** A text that is a non-empty stripped token wrapped in surrounding
    whitespace is still different from the token after reading. *)
Lemma padded_token_differs (t l rws : string) :
  strip t <> "" ->
  only_space l = true -> only_space rws = true ->
  l +:+ strip t +:+ rws <> strip t ->
  universal_newlines (l +:+ strip t +:+ rws) <> strip t.
Proof.
  intros Hne Hl Hr Hpad Heq.
  destruct (decide (l = "")) as [->|Hl'].
  - simpl in *. destruct (decide (rws = "")) as [->|Hr'].
    + apply Hpad. clear. induction (strip t); simpl; congruence.
    + pose proof (ends_space_app (strip t) rws Hr Hr') as H.
      apply ends_space_universal_newlines in H.
      rewrite Heq, ends_space_strip in H. done.
  - pose proof (starts_space_app l (strip t +:+ rws) Hl Hl') as H.
    apply starts_space_universal_newlines in H.
    rewrite Heq, starts_space_strip in H. done.
Qed.
End PyFacts.

(** ** Basic facts about the interpreter *)

Arguments version_url : simpl never.
Arguments local_version_file : simpl never.
Arguments mnt_file : simpl never.

Lemma exec_bind remote {A B} (m : prog A) (f : A -> prog B) (fs : files) :
  exec remote (bind m f) fs =
    match res (exec remote m fs) with
    | Returned a =>
        let r2 := exec remote (f a) (final (exec remote m fs)) in
        Result (res r2) (final r2) (trace (exec remote m fs) ++ trace r2)
    | Raised e =>
        Result (Raised e) (final (exec remote m fs)) (trace (exec remote m fs))
    end.
Proof.
  revert fs. induction m as [a|e|url k IH|p k IH|p k IH|p k IH|p k IH|p s k IH|s k IH];
    intros fs; simpl.
  - by destruct (exec remote (f a) fs).
  - done.
  - destruct (remote url) as [|r]; [done|]. rewrite IH.
    unfold after. simpl. by destruct (res (exec remote (k r) fs)).
  - rewrite IH. unfold after. simpl.
    by destruct (res (exec remote (k _) fs)).
  - destruct (fs !! p) as [s|]; [|done]. rewrite IH. unfold after. simpl.
    by destruct (res (exec remote (k _) fs)).
  - destruct (fs !! p) as [s|]; [|done]. rewrite IH. unfold after. simpl.
    by destruct (res (exec remote k _)).
  - rewrite IH. unfold after. simpl. by destruct (res (exec remote k _)).
  - rewrite IH. unfold after. simpl. by destruct (res (exec remote k _)).
  - rewrite IH. unfold after. simpl. by destruct (res (exec remote k _)).
Qed.

Section BodyViewFacts.

Variable remote : string -> get_result.
Variables (area : string) (need_nginx_sync : bool) (fs : files).

Lemma write_in_place (p v : string) :
  <[p := default "" (<[p := ""]> fs !! p) +:+ v]> (<[p := ""]> fs)
  = <[p := v]> fs.
Proof. by rewrite lookup_insert_eq, insert_insert_eq. Qed.

Lemma loop_body_view :
  body_view remote area need_nginx_sync fs (exec remote (loop_body area need_nginx_sync) fs).
Proof.
  unfold loop_body. simpl.
  destruct (remote (version_url area)) as [|r] eqn:Hget; simpl.
  { by apply BodyGetRaises. }
  unfold raise_for_status.
  destruct (is_error r) eqn:Herr; simpl.
  { by eapply BodyHttpError. }
  destruct (fs !! local_version_file area) as [c|] eqn:Hloc; simpl;
    rewrite ?Hloc; simpl.
  - case_decide as Hv; simpl.
    + rewrite Hloc. unfold after; simpl.
      generalize (BodyEmptyRetire remote area need_nginx_sync fs r c Hget Herr Hv Hloc).
      unfold lookup_trace. by rewrite Hloc.
    + destruct (fs !! mnt_file area (Py.strip (text r))) as [m|] eqn:Hmnt; simpl.
      * case_decide as Hne; simpl; unfold after; simpl.
        -- rewrite write_in_place.
           assert (Hne' : Py.universal_newlines <$> fs !! local_version_file area
                          <> Some (Py.strip (text r))).
           { rewrite Hloc. simpl. congruence. }
           generalize (BodyAdopt remote area need_nginx_sync fs r Hget Herr Hv (mk_is_Some _ _ Hmnt) Hne').
           unfold lookup_trace. by rewrite Hloc.
        -- assert (Heq : Py.universal_newlines <$> fs !! local_version_file area
                         = Some (Py.strip (text r))).
           { rewrite Hloc. simpl. congruence. }
           generalize (BodySame remote area need_nginx_sync fs r Hget Herr Hv (mk_is_Some _ _ Hmnt) Heq).
           unfold lookup_trace. by rewrite Hloc.
      * rewrite Hloc. simpl.
        generalize (BodyMissingRetire remote area need_nginx_sync fs r c Hget Herr Hv Hmnt Hloc).
        unfold lookup_trace. by rewrite Hloc.
  - case_decide as Hv; simpl.
    + generalize (BodyEmptyNoop remote area need_nginx_sync fs r Hget Herr Hv Hloc).
      unfold lookup_trace. by rewrite Hloc.
    + destruct (fs !! mnt_file area (Py.strip (text r))) as [m|] eqn:Hmnt; simpl.
      * unfold after; simpl. rewrite write_in_place.
        assert (Hne' : Py.universal_newlines <$> fs !! local_version_file area
                       <> Some (Py.strip (text r))).
        { by rewrite Hloc. }
        generalize (BodyAdopt remote area need_nginx_sync fs r Hget Herr Hv (mk_is_Some _ _ Hmnt) Hne').
        unfold lookup_trace. by rewrite Hloc.
      * generalize (BodyMissingNoop remote area need_nginx_sync fs r Hget Herr Hv Hmnt Hloc).
        unfold lookup_trace. by rewrite Hloc.
Qed.

End BodyViewFacts.

(** ** Paths *)

Section Paths.

Local Arguments String.append !_ _ / : simpl nomatch.

Lemma local_version_file_inj (a a' : string) :
  local_version_file a = local_version_file a' -> a = a'.
Proof.
  unfold local_version_file. intros H.
  apply (inj (String.append _)) in H.
  by apply PyFacts.app_inv_tail in H.
Qed.

Lemma version_url_inj (a a' : string) :
  version_url a = version_url a' -> a = a'.
Proof.
  unfold version_url. intros H.
  apply (inj (String.append _)) in H.
  by apply PyFacts.app_inv_tail in H.
Qed.

Lemma local_version_file_not_mnt (a a' v : string) :
  local_version_file a <> mnt_file a' v.
Proof. unfold local_version_file, mnt_file. simpl. intros [=]. Qed.

End Paths.

Lemma areas_NoDup : NoDup areas.
Proof. apply (bool_decide_unpack _). by vm_compute. Qed.

(** ** Facts about one loop iteration *)

(** Splits a property of all elements of a trace into one goal per
    explicit element, leaving [lookup_trace] folded. *)
Ltac split_trace :=
  unfold events; cbn [res final trace];
  rewrite ?fmap_app, ?Forall_app; cbn [fmap list_fmap ev post];
  repeat match goal with
    | |- _ /\ _ => split
    | |- Forall _ (_ :: _) => apply Forall_cons_2
    | |- Forall _ [] => apply Forall_nil_2
    end.

Lemma lookup_trace_post area fs r :
  Forall (fun st => post st = fs) (lookup_trace area fs r).
Proof.
  unfold lookup_trace. destruct (fs !! local_version_file area);
    repeat constructor.
Qed.

Lemma lookup_trace_events area fs r :
  Forall (fun e => store_change e = false) (ev <$> lookup_trace area fs r).
Proof.
  unfold lookup_trace. destruct (fs !! local_version_file area);
    repeat constructor.
Qed.

Lemma lookup_trace_no_change area fs r :
  existsb store_change (ev <$> lookup_trace area fs r) = false.
Proof.
  unfold lookup_trace. by destruct (fs !! local_version_file area).
Qed.

Section BodyFacts.

Variable remote : string -> get_result.
Variables (area : string) (need_nginx_sync : bool) (fs : files).

Local Abbreviation R := (exec remote (loop_body area need_nginx_sync) fs).

(** An iteration touches no file but the area's record. *)
Lemma loop_body_frame (p : string) :
  p <> local_version_file area ->
  final R !! p = fs !! p /\ Forall (fun st => post st !! p = fs !! p) (trace R).
Proof.
  intros Hp.
  assert (Hpre : forall r, Forall (fun st => post st !! p = fs !! p)
                             (lookup_trace area fs r)).
  { intros r. eapply Forall_impl; [apply lookup_trace_post|].
    by intros st ->. }
  destruct (loop_body_view remote area need_nginx_sync fs); cbn [res final trace];
    split_trace; auto; simpl;
    by rewrite ?lookup_delete_ne, ?lookup_insert_ne by done.
Qed.

(** The flag an iteration hands on is the incoming flag, or [true] when the
    iteration modified the store. *)
Lemma loop_body_flag (b : bool) :
  res R = Returned b ->
  b = need_nginx_sync || existsb store_change (events R).
Proof.
  unfold events.
  destruct (loop_body_view remote area need_nginx_sync fs); cbn [res final trace];
    intros [=<-]; rewrite fmap_app, existsb_app, lookup_trace_no_change;
    simpl; by rewrite ?orb_true_r, ?orb_false_r.
Qed.

Lemma loop_body_record_events :
  Forall (fun e => store_change e = true -> record_event area e) (events R).
Proof.
  unfold events.
  assert (Hpre : forall r, Forall (fun e => store_change e = true -> record_event area e)
                             (ev <$> lookup_trace area fs r)).
  { intros r. eapply Forall_impl; [apply lookup_trace_events|].
    simpl. intros e ->. done. }
  destruct (loop_body_view remote area need_nginx_sync fs); cbn [res final trace];
    split_trace; auto; simpl; try done; intros _; unfold record_event; eauto.
Qed.

Lemma loop_body_no_change :
  existsb store_change (events R) = false -> final R = fs.
Proof.
  unfold events.
  destruct (loop_body_view remote area need_nginx_sync fs); cbn [res final trace]; try done;
    rewrite fmap_app, existsb_app, lookup_trace_no_change; simpl; done.
Qed.

Lemma loop_body_raises (e : exn) :
  lookup_raises remote area e ->
  R = Result (Raised e) fs
        [Step (EvGet (version_url area) (remote (version_url area))) fs].
Proof.
  intros [[Hget ->]|(r & Hget & Herr & ->)];
    rewrite Hget;
    destruct (loop_body_view remote area need_nginx_sync fs);
    try congruence.
Qed.

Lemma loop_body_raised (e : exn) :
  res R = Raised e -> lookup_raises remote area e.
Proof.
  destruct (loop_body_view remote area need_nginx_sync fs); cbn [res final trace];
    intros [=<-]; unfold lookup_raises; eauto.
Qed.

Lemma loop_body_returns :
  lookup_ok remote area -> exists b, res R = Returned b.
Proof.
  intros (r & Hget & Herr).
  destruct (loop_body_view remote area need_nginx_sync fs); cbn [res final trace]; eauto;
    congruence.
Qed.

Lemma loop_body_returned (b : bool) :
  res R = Returned b -> lookup_ok remote area.
Proof.
  destruct (loop_body_view remote area need_nginx_sync fs); cbn [res final trace];
    intros [=]; unfold lookup_ok; eauto.
Qed.

End BodyFacts.

(** ** Facts about the loop *)

Section RunFacts.

Variable remote : string -> get_result.

Lemma exec_for_areas_cons a l n fs :
  exec remote (for_areas (a :: l) n) fs =
    let r1 := exec remote (loop_body a n) fs in
    match res r1 with
    | Returned n1 =>
        let r2 := exec remote (for_areas l n1) (final r1) in
        Result (res r2) (final r2) (trace r1 ++ trace r2)
    | Raised e => Result (Raised e) (final r1) (trace r1)
    end.
Proof. cbn [for_areas]. by rewrite exec_bind. Qed.

Lemma exec_for_areas_app l1 l2 n fs :
  exec remote (for_areas (l1 ++ l2) n) fs =
    let r1 := exec remote (for_areas l1 n) fs in
    match res r1 with
    | Returned n1 =>
        let r2 := exec remote (for_areas l2 n1) (final r1) in
        Result (res r2) (final r2) (trace r1 ++ trace r2)
    | Raised e => Result (Raised e) (final r1) (trace r1)
    end.
Proof.
  revert n fs. induction l1 as [|a l1 IH]; intros n fs.
  - cbn. by destruct (exec remote (for_areas l2 n) fs).
  - rewrite <- app_comm_cons, !exec_for_areas_cons. cbn zeta.
    destruct (res (exec remote (loop_body a n) fs)) as [n1|e]; [|done].
    rewrite IH. cbn zeta. cbn [res final trace].
    destruct (res (exec remote (for_areas l1 n1) _)); cbn [res final trace];
      by rewrite ?app_assoc.
Qed.

Lemma for_areas_frame l n fs p :
  (forall a, a ∈ l -> p <> local_version_file a) ->
  final (exec remote (for_areas l n) fs) !! p = fs !! p
  /\ Forall (fun st => post st !! p = fs !! p)
       (trace (exec remote (for_areas l n) fs)).
Proof.
  revert n fs. induction l as [|a l IH]; intros n fs Hp.
  { cbn. split; [done|constructor]. }
  rewrite exec_for_areas_cons. cbn zeta.
  destruct (loop_body_frame remote a n fs p) as [Hf Ht]; [apply Hp; constructor|].
  destruct (res (exec remote (loop_body a n) fs)) as [n1|e]; cbn [res final trace];
    [|done].
  destruct (IH n1 (final (exec remote (loop_body a n) fs))) as [Hf' Ht'].
  { intros a' Ha'. apply Hp. by constructor. }
  split; [by rewrite Hf'|]. apply Forall_app. split; [done|].
  eapply Forall_impl; [exact Ht'|]. simpl. intros st Hst. by rewrite Hst.
Qed.

Lemma for_areas_flag l n fs b :
  res (exec remote (for_areas l n) fs) = Returned b ->
  b = n || existsb store_change (events (exec remote (for_areas l n) fs)).
Proof.
  revert n fs. induction l as [|a l IH]; intros n fs.
  { cbn. intros [=->]. by rewrite orb_false_r. }
  rewrite exec_for_areas_cons. cbn zeta.
  pose proof (loop_body_flag remote a n fs) as Hb.
  destruct (res (exec remote (loop_body a n) fs)) as [n1|e]; cbn [res]; [|done].
  intros Hres. apply IH in Hres. specialize (Hb n1 eq_refl).
  unfold events in *. cbn [trace]. rewrite fmap_app, existsb_app.
  rewrite Hres, orb_assoc. f_equal. exact Hb.
Qed.

Lemma for_areas_record_events l n fs :
  Forall (fun e => store_change e = true ->
                   exists a, a ∈ l /\ record_event a e)
    (events (exec remote (for_areas l n) fs)).
Proof.
  revert n fs. induction l as [|a l IH]; intros n fs.
  { cbn. constructor. }
  rewrite exec_for_areas_cons. cbn zeta.
  assert (Ha : Forall (fun e => store_change e = true ->
                         exists a', a' ∈ a :: l /\ record_event a' e)
                 (events (exec remote (loop_body a n) fs))).
  { eapply Forall_impl; [apply loop_body_record_events|].
    intros e He Hs. exists a. split; [constructor|auto]. }
  destruct (res (exec remote (loop_body a n) fs)) as [n1|e]; [|done].
  unfold events in *. cbn [trace]. rewrite fmap_app. apply Forall_app.
  split; [done|]. eapply Forall_impl; [apply IH|].
  intros e He Hs. destruct (He Hs) as (a' & ? & ?). exists a'.
  split; [by constructor|done].
Qed.

Lemma for_areas_no_change l n fs :
  existsb store_change (events (exec remote (for_areas l n) fs)) = false ->
  final (exec remote (for_areas l n) fs) = fs.
Proof.
  revert n fs. induction l as [|a l IH]; intros n fs; [done|].
  rewrite exec_for_areas_cons. cbn zeta.
  pose proof (loop_body_no_change remote a n fs) as Ha.
  destruct (res (exec remote (loop_body a n) fs)) as [n1|e]; [|done].
  unfold events in *. cbn [trace final]. rewrite fmap_app, existsb_app.
  intros [H1 H2]%orb_false_iff. rewrite IH by done. auto.
Qed.

Lemma for_areas_returns l n fs :
  Forall (lookup_ok remote) l ->
  exists b, res (exec remote (for_areas l n) fs) = Returned b.
Proof.
  revert n fs. induction l as [|a l IH]; intros n fs Hl.
  { cbn. eauto. }
  apply Forall_cons in Hl as [Ha Hl].
  rewrite exec_for_areas_cons. cbn zeta.
  destruct (loop_body_returns remote a n fs Ha) as [n1 ->]. cbn [res].
  by apply IH.
Qed.

Lemma for_areas_returned l n fs b :
  res (exec remote (for_areas l n) fs) = Returned b ->
  Forall (lookup_ok remote) l.
Proof.
  revert n fs. induction l as [|a l IH]; intros n fs; [constructor|].
  rewrite exec_for_areas_cons. cbn zeta.
  pose proof (loop_body_returned remote a n fs) as Ha.
  destruct (res (exec remote (loop_body a n) fs)) as [n1|e]; [|done].
  cbn [res]. intros H. constructor; eauto.
Qed.

Lemma for_areas_raises pre a post n fs e :
  Forall (lookup_ok remote) pre ->
  lookup_raises remote a e ->
  exec remote (for_areas (pre ++ a :: post) n) fs =
    let r1 := exec remote (for_areas pre n) fs in
    Result (Raised e) (final r1)
      (trace r1 ++ [Step (EvGet (version_url a) (remote (version_url a)))
                      (final r1)]).
Proof.
  intros Hpre Ha. rewrite exec_for_areas_app. cbn zeta.
  destruct (for_areas_returns pre n fs Hpre) as [n1 ->].
  rewrite exec_for_areas_cons. cbn zeta.
  by rewrite (loop_body_raises remote a n1 _ e Ha).
Qed.

End RunFacts.

(** ** Settled records *)

Section Settled.

Variable remote : string -> get_result.

Lemma settled_frame fs fs' a :
  settled remote fs a ->
  fs' !! local_version_file a = fs !! local_version_file a ->
  (forall v, fs' !! mnt_file a v = fs !! mnt_file a v) ->
  settled remote fs' a.
Proof.
  intros (r & Hget & Herr & H) Hl Hm. exists r. split; [done|]. split; [done|].
  by rewrite Hl, Hm.
Qed.

(** On a settled record an iteration only looks. *)
Lemma loop_body_settled_noop a n fs :
  settled remote fs a ->
  res (exec remote (loop_body a n) fs) = Returned n
  /\ final (exec remote (loop_body a n) fs) = fs
  /\ existsb store_change (events (exec remote (loop_body a n) fs)) = false.
Proof.
  intros (r & Hget & Herr & H). unfold events.
  destruct (loop_body_view remote a n fs) as
    [Hg|r' Hg He|r' c Hg He Hv Hl|r' Hg He Hv Hl|r' c Hg He Hv Hm Hl
    |r' Hg He Hv Hm Hl|r' Hg He Hv Hm Hl|r' Hg He Hv Hm Hl];
    rewrite Hget in Hg; simplify_eq; cbn [res final trace];
    rewrite ?fmap_app, ?existsb_app, ?lookup_trace_no_change;
    try done; exfalso; try congruence;
    (case_decide as Hd; [destruct Hd as [Hd1 Hd2]|]); try congruence.
  - rewrite Hm in Hd2. by destruct Hd2.
  - by apply Hd.
Qed.

(** A completed iteration leaves the record settled, provided an adopted
    version reads back unchanged. *)
Lemma loop_body_settles a n fs b :
  res (exec remote (loop_body a n) fs) = Returned b ->
  (forall r, remote (version_url a) = GetReturns r ->
             is_Some (fs !! mnt_file a (Py.strip (text r))) ->
             Py.has_cr (Py.strip (text r)) = false) ->
  settled remote (final (exec remote (loop_body a n) fs)) a.
Proof.
  destruct (loop_body_view remote a n fs) as
    [Hg|r' Hg He|r' c Hg He Hv Hl|r' Hg He Hv Hl|r' c Hg He Hv Hm Hl
    |r' Hg He Hv Hm Hl|r' Hg He Hv Hm Hl|r' Hg He Hv Hm Hl];
    cbn [res final]; intros [=] Hcr; exists r'; (split; [done|]);
    (split; [done|]).
  - rewrite Hv. case_decide as Hd; [by destruct Hd|]. apply lookup_delete_eq.
  - rewrite Hv. case_decide as Hd; [by destruct Hd|]. done.
  - rewrite lookup_delete_ne by apply local_version_file_not_mnt.
    rewrite Hm. case_decide as Hd; [destruct Hd as [_ []]; done|].
    apply lookup_delete_eq.
  - rewrite Hm. case_decide as Hd; [destruct Hd as [_ []]; done|]. done.
  - rewrite lookup_insert_ne by apply local_version_file_not_mnt.
    case_decide as Hd; [|destruct Hd; done].
    rewrite lookup_insert_eq. simpl.
    by rewrite PyFacts.universal_newlines_no_cr by eauto.
  - case_decide as Hd; [done|]. destruct Hd. done.
Qed.

Lemma for_areas_settled_noop l n fs :
  (forall a, a ∈ l -> settled remote fs a) ->
  res (exec remote (for_areas l n) fs) = Returned n
  /\ final (exec remote (for_areas l n) fs) = fs
  /\ existsb store_change (events (exec remote (for_areas l n) fs)) = false.
Proof.
  revert n fs. induction l as [|a l IH]; intros n fs Hl; [done|].
  rewrite exec_for_areas_cons. cbn zeta.
  destruct (loop_body_settled_noop a n fs) as (Hr & Hf & He).
  { apply Hl. constructor. }
  rewrite Hr, Hf. cbn [res final trace].
  destruct (IH n fs) as (Hr' & Hf' & He').
  { intros a' Ha'. apply Hl. by constructor. }
  split; [done|]. split; [done|].
  unfold events in *. cbn [trace]. by rewrite fmap_app, existsb_app, He, He'.
Qed.

Lemma for_areas_settles l n fs b :
  res (exec remote (for_areas l n) fs) = Returned b ->
  mounted_versions_cr_free remote fs l ->
  forall a, a ∈ l -> settled remote (final (exec remote (for_areas l n) fs)) a.
Proof.
  revert n fs. induction l as [|a l IH]; intros n fs Hres Hcr a' Ha'.
  { by apply elem_of_nil in Ha'. }
  rewrite exec_for_areas_cons in Hres |- *. cbn zeta in *.
  pose proof (loop_body_settles a n fs) as Hs.
  destruct (res (exec remote (loop_body a n) fs)) as [n1|e]; [|done].
  cbn [res final] in *.
  set (fs1 := final (exec remote (loop_body a n) fs)) in *.
  assert (Hmnt : forall x v, fs1 !! mnt_file x v = fs !! mnt_file x v).
  { intros x v. apply loop_body_frame.
    intros H. symmetry in H. by apply local_version_file_not_mnt in H. }
  assert (Hcr1 : mounted_versions_cr_free remote fs1 l).
  { intros x r Hx Hget Hm. rewrite Hmnt in Hm.
    eapply Hcr; [by constructor|done|done]. }
  destruct (decide (a' ∈ l)) as [Hin|Hnin]; [by eapply IH|].
  assert (a' = a) as -> by (apply elem_of_cons in Ha' as [?|?]; done).
  apply (settled_frame fs1).
  - eapply Hs; [done|]. intros r Hget Hm. eapply Hcr; [constructor|done|done].
  - apply for_areas_frame. intros x Hx Heq.
    apply local_version_file_inj in Heq. by subst.
  - intros v. apply for_areas_frame. intros x Hx Heq.
    symmetry in Heq. by apply local_version_file_not_mnt in Heq.
Qed.

End Settled.

(** ** Availability checks precede writes *)

Lemma write_checked_mono k seen e :
  write_checked seen e -> write_checked (k ++ seen) e.
Proof.
  destruct e; simpl; try done.
  - intros (a & v & ? & ?). exists a, v. split; [done|].
    apply elem_of_app. by right.
  - intros (a & ? & ?). exists a. split; [done|]. apply elem_of_app. by right.
Qed.

Lemma writes_checked_app evs1 evs2 :
  writes_checked evs1 -> writes_checked evs2 -> writes_checked (evs1 ++ evs2).
Proof.
  intros H1 H2 l1 e l2 Heq.
  apply app_eq_app in Heq as [k [[-> Hk]|[-> Hk]]].
  - destruct k as [|e' k].
    + simpl in Hk. rewrite <- (app_nil_r l1).
      apply write_checked_mono. by apply (H2 [] e l2).
    + simpl in Hk. injection Hk as -> ->. by apply (H1 l1 e' k).
  - apply write_checked_mono. by apply (H2 k e l2).
Qed.

Lemma writes_checked_no_change evs :
  Forall (fun e => store_change e = false) evs -> writes_checked evs.
Proof.
  intros H l1 e l2 ->. apply Forall_app in H as [_ H].
  apply Forall_cons in H as [H _]. by destruct e.
Qed.

Lemma loop_body_writes_checked remote area n fs :
  writes_checked (events (exec remote (loop_body area n) fs)).
Proof.
  unfold events.
  destruct (loop_body_view remote area n fs); cbn [trace];
    rewrite ?fmap_app;
    try (apply writes_checked_app;
         [apply writes_checked_no_change, lookup_trace_events|]);
    cbn [fmap list_fmap ev].
  all: intros l1 e l2 Heq;
    destruct l1 as [|e1 [|e2 [|e3 [|e4 l1]]]]; simplify_eq/=; try done.
  - exists area, (Py.strip (text r)). split; [done|]. by constructor.
  - exists area. split; [done|]. by constructor.
Qed.

Lemma for_areas_writes_checked remote l n fs :
  writes_checked (events (exec remote (for_areas l n) fs)).
Proof.
  revert n fs. induction l as [|a l IH]; intros n fs.
  { apply writes_checked_no_change. constructor. }
  rewrite exec_for_areas_cons. cbn zeta.
  pose proof (loop_body_writes_checked remote a n fs) as Ha.
  destruct (res (exec remote (loop_body a n) fs)) as [n1|e]; [|done].
  unfold events in *. cbn [trace]. rewrite fmap_app.
  by apply writes_checked_app.
Qed.

(** ** The states a crash can leave behind *)

Lemma loop_body_record_states remote area n fs a s :
  s = final (exec remote (loop_body area n) fs)
  \/ s ∈ post <$> trace (exec remote (loop_body area n) fs) ->
  record_states remote fs a (s !! local_version_file a).
Proof.
  intros Hs. destruct (decide (a = area)) as [->|Hne].
  - assert (Hpre : forall r, Forall (fun st => st = fs)
                               (post <$> lookup_trace area fs r)).
    { intros r. apply Forall_fmap. apply lookup_trace_post. }
    revert Hs.
    destruct (loop_body_view remote area n fs); cbn [res final trace];
      rewrite ?fmap_app, ?elem_of_app; cbn [fmap list_fmap ev post];
      rewrite ?elem_of_cons, ?elem_of_nil;
      intros Hs;
      repeat match goal with
        | H : _ \/ _ |- _ => destruct H as [H|H]
        | H : _ ∈ post <$> lookup_trace _ _ _ |- _ =>
            eapply Forall_forall in H; [|apply Hpre]; simpl in H
        | H : False |- _ => destruct H
        end; subst s; unfold record_states;
      rewrite ?lookup_delete_eq, ?lookup_insert_eq; eauto 10.
  - left. assert (Hp : local_version_file a <> local_version_file area).
    { intros H. by apply local_version_file_inj in H. }
    destruct (loop_body_frame remote area n fs _ Hp) as [Hf Ht].
    destruct Hs as [->|Hs]; [done|].
    apply list_elem_of_fmap in Hs as (st & -> & Hst).
    by eapply Forall_forall in Ht.
Qed.

Lemma record_states_trans remote fs fs1 a o :
  record_states remote fs a (fs1 !! local_version_file a) ->
  record_states remote fs1 a o ->
  record_states remote fs a o.
Proof.
  unfold record_states. intros H1 [->|H2]; [done|]. eauto.
Qed.

Lemma for_areas_record_states remote l n fs a s :
  s = final (exec remote (for_areas l n) fs)
  \/ s ∈ post <$> trace (exec remote (for_areas l n) fs) ->
  record_states remote fs a (s !! local_version_file a).
Proof.
  revert n fs. induction l as [|a0 l IH]; intros n fs.
  { cbn. intros [->|[]%elem_of_nil]. by left. }
  rewrite exec_for_areas_cons. cbn zeta.
  pose proof (loop_body_record_states remote a0 n fs a) as Hb.
  destruct (res (exec remote (loop_body a0 n) fs)) as [n1|e];
    cbn [final trace]; [|by apply Hb].
  rewrite fmap_app, elem_of_app. intros [Hs|[Hs|Hs]].
  - eapply record_states_trans; [apply Hb; by left|]. apply (IH n1). by left.
  - apply Hb. by right.
  - eapply record_states_trans; [apply Hb; by left|]. apply (IH n1). by right.
Qed.

(** A write goes through the empty file. *)
Lemma loop_body_write_truncates remote area n fs p v :
  EvWrite p v ∈ events (exec remote (loop_body area n) fs) ->
  exists st, st ∈ trace (exec remote (loop_body area n) fs)
             /\ ev st = EvOpenW p /\ post st !! p = Some "".
Proof.
  unfold events.
  assert (Hpre : forall r, EvWrite p v ∈ ev <$> lookup_trace area fs r -> False).
  { intros r H. eapply Forall_forall in H; [|apply lookup_trace_events]. done. }
  destruct (loop_body_view remote area n fs); cbn [res final trace];
    rewrite ?fmap_app, ?elem_of_app; cbn [fmap list_fmap ev post];
    rewrite ?elem_of_cons, ?elem_of_nil; intros Hs;
    repeat match goal with
      | H : _ \/ _ |- _ => destruct H as [H|H]
      | H : _ ∈ ev <$> lookup_trace _ _ _ |- _ => destruct (Hpre _ H)
      | H : False |- _ => destruct H
      end; simplify_eq.
  eexists. split; [apply elem_of_app; right; right; left|].
  split; [done|]. apply lookup_insert_eq.
Qed.

Lemma for_areas_write_truncates remote l n fs p v :
  EvWrite p v ∈ events (exec remote (for_areas l n) fs) ->
  exists st, st ∈ trace (exec remote (for_areas l n) fs)
             /\ ev st = EvOpenW p /\ post st !! p = Some "".
Proof.
  revert n fs. induction l as [|a l IH]; intros n fs.
  { cbn. by intros ?%elem_of_nil. }
  rewrite exec_for_areas_cons. cbn zeta.
  pose proof (loop_body_write_truncates remote a n fs p v) as Ha.
  destruct (res (exec remote (loop_body a n) fs)) as [n1|e]; [|done].
  unfold events in *. cbn [trace]. rewrite fmap_app, elem_of_app.
  intros [H|H].
  - destruct (Ha H) as (st & ? & ? & ?). exists st.
    split; [apply elem_of_app; by left|done].
  - destruct (IH _ _ H) as (st & ? & ? & ?). exists st.
    split; [apply elem_of_app; by right|done].
Qed.

(** ** Which area an operation belongs to *)

Lemma loop_body_event_of_area remote area n fs :
  Forall (event_of_area area) (events (exec remote (loop_body area n) fs)).
Proof.
  assert (Hpre : forall r, Forall (event_of_area area)
                             (ev <$> lookup_trace area fs r)).
  { intros r. unfold lookup_trace.
    destruct (fs !! local_version_file area); cbn [fmap list_fmap ev];
      repeat first [apply Forall_nil_2 | apply Forall_cons_2]; simpl; auto. }
  destruct (loop_body_view remote area n fs); split_trace; auto; simpl;
    eauto.
Qed.

Lemma for_areas_event_of_area remote l n fs :
  Forall (fun e => exists a, a ∈ l /\ event_of_area a e)
    (events (exec remote (for_areas l n) fs)).
Proof.
  revert n fs. induction l as [|a l IH]; intros n fs.
  { cbn. constructor. }
  rewrite exec_for_areas_cons. cbn zeta.
  assert (Ha : Forall (fun e => exists a', a' ∈ a :: l /\ event_of_area a' e)
                 (events (exec remote (loop_body a n) fs))).
  { eapply Forall_impl; [apply loop_body_event_of_area|].
    intros e He. exists a. split; [constructor|done]. }
  destruct (res (exec remote (loop_body a n) fs)) as [n1|e]; [|done].
  unfold events in *. cbn [trace]. rewrite fmap_app. apply Forall_app.
  split; [done|]. eapply Forall_impl; [apply IH|].
  intros e (a' & ? & ?). exists a'. split; [by constructor|done].
Qed.

Lemma record_event_of_area a a' e :
  record_event a e -> event_of_area a' e -> a = a'.
Proof.
  intros [->|[->|[v ->]]]; simpl; apply local_version_file_inj.
Qed.

Lemma record_event_store_change a e : record_event a e -> store_change e = true.
Proof. by intros [->|[->|[v ->]]]. Qed.

(** ** Truthful checks *)

(** A positive check of a marker file is truthful for the whole run: the
    marker is there from the start. *)
Lemma loop_body_exists_true remote area n fs a v :
  EvExists (mnt_file a v) true ∈ events (exec remote (loop_body area n) fs) ->
  is_Some (fs !! mnt_file a v).
Proof.
  unfold events.
  assert (Hpre : forall r, EvExists (mnt_file a v) true
                           ∈ ev <$> lookup_trace area fs r -> False).
  { intros r. unfold lookup_trace.
    destruct (fs !! local_version_file area); cbn [fmap list_fmap ev];
      rewrite ?elem_of_cons, ?elem_of_nil; intros H;
      repeat (destruct H as [H|H]); try done; simplify_eq;
      by eapply local_version_file_not_mnt. }
  destruct (loop_body_view remote area n fs); cbn [res final trace];
    rewrite ?fmap_app, ?elem_of_app; cbn [fmap list_fmap ev post];
    rewrite ?elem_of_cons, ?elem_of_nil; intros Hs;
    repeat match goal with
      | H : _ \/ _ |- _ => destruct H as [H|H]
      | H : _ ∈ ev <$> lookup_trace _ _ _ |- _ => destruct (Hpre _ H)
      | H : False |- _ => destruct H
      end; simplify_eq; unfold mnt_file in *; by rewrite Hs.
Qed.

Lemma for_areas_exists_true remote l n fs a v :
  EvExists (mnt_file a v) true ∈ events (exec remote (for_areas l n) fs) ->
  is_Some (fs !! mnt_file a v).
Proof.
  revert n fs. induction l as [|a0 l IH]; intros n fs.
  { cbn. by intros ?%elem_of_nil. }
  rewrite exec_for_areas_cons. cbn zeta.
  pose proof (loop_body_exists_true remote a0 n fs a v) as Ha.
  assert (Hf : final (exec remote (loop_body a0 n) fs) !! mnt_file a v
               = fs !! mnt_file a v).
  { apply loop_body_frame. intros H. symmetry in H.
    by apply local_version_file_not_mnt in H. }
  destruct (res (exec remote (loop_body a0 n) fs)) as [n1|e]; [|done].
  unfold events in *. cbn [trace]. rewrite fmap_app, elem_of_app.
  intros [H|H]; [by apply Ha|]. rewrite <- Hf. by eapply IH.
Qed.

(** ** The branches of an iteration *)

(** The remote version is empty. *)
Lemma loop_body_empty_remote remote area n fs r :
  remote (version_url area) = GetReturns r ->
  is_error r = false ->
  Py.strip (text r) = "" ->
  final (exec remote (loop_body area n) fs)
  = delete (local_version_file area) fs
  /\ (forall x,
        x ∈ events (exec remote (loop_body area n) fs) ->
        store_change x = true -> x = EvUnlink (local_version_file area))
  /\ match fs !! local_version_file area with
     | Some _ =>
         res (exec remote (loop_body area n) fs) = Returned true
         /\ EvUnlink (local_version_file area)
              ∈ events (exec remote (loop_body area n) fs)
     | None =>
         res (exec remote (loop_body area n) fs) = Returned n
         /\ forall x, x ∈ events (exec remote (loop_body area n) fs) ->
                      store_change x = false
     end.
Proof.
  intros Hget Herr Hv. unfold events.
  assert (Hpre : forall (x : event),
             x ∈ ev <$> lookup_trace area fs r -> store_change x = false).
  { intros x Hx. by eapply Forall_forall in Hx; [|apply lookup_trace_events]. }
  destruct (loop_body_view remote area n fs)
    as [Hg|r' Hg He|r' c Hg He Hv' Hl'|r' Hg He Hv' Hl'|r' c Hg He Hv' Hm' Hl'
       |r' Hg He Hv' Hm' Hl'|r' Hg He Hv' Hm' Hl'|r' Hg He Hv' Hm' Hl'];
    rewrite Hget in Hg; simplify_eq; cbn [res final trace];
    try congruence; rewrite Hl', fmap_app; cbn [fmap list_fmap ev].
  - split; [done|]. split.
    + intros x [Hx|Hx]%elem_of_app Hs.
      * apply Hpre in Hx. congruence.
      * rewrite !elem_of_cons, elem_of_nil in Hx.
        destruct Hx as [->|[->|[]]]; done.
    + split; [done|]. apply elem_of_app. right. repeat constructor.
  - split; [by rewrite delete_id|]. split.
    + intros x [Hx|Hx]%elem_of_app Hs.
      * apply Hpre in Hx. congruence.
      * rewrite !elem_of_cons, elem_of_nil in Hx.
        destruct Hx as [->|[]]; done.
    + split; [done|].
      intros x [Hx|Hx]%elem_of_app; [by apply Hpre|].
      rewrite !elem_of_cons, elem_of_nil in Hx.
      destruct Hx as [->|[]]; done.
Qed.

(** The remote version is non-empty and its marker file is missing. *)
Lemma loop_body_unavailable remote area n fs r :
  remote (version_url area) = GetReturns r ->
  is_error r = false ->
  Py.strip (text r) <> "" ->
  fs !! mnt_file area (Py.strip (text r)) = None ->
  final (exec remote (loop_body area n) fs)
  = delete (local_version_file area) fs
  /\ (forall x,
        x ∈ events (exec remote (loop_body area n) fs) ->
        store_change x = true -> x = EvUnlink (local_version_file area))
  /\ match fs !! local_version_file area with
     | Some _ =>
         res (exec remote (loop_body area n) fs) = Returned true
         /\ EvUnlink (local_version_file area)
              ∈ events (exec remote (loop_body area n) fs)
     | None =>
         res (exec remote (loop_body area n) fs) = Returned n
         /\ forall x, x ∈ events (exec remote (loop_body area n) fs) ->
                      store_change x = false
     end.
Proof.
  intros Hget Herr Hv Hmnt. unfold events.
  assert (Hpre : forall (x : event),
             x ∈ ev <$> lookup_trace area fs r -> store_change x = false).
  { intros x Hx. by eapply Forall_forall in Hx; [|apply lookup_trace_events]. }
  destruct (loop_body_view remote area n fs)
    as [Hg|r' Hg He|r' c Hg He Hv' Hl'|r' Hg He Hv' Hl'|r' c Hg He Hv' Hm' Hl'
       |r' Hg He Hv' Hm' Hl'|r' Hg He Hv' Hm' Hl'|r' Hg He Hv' Hm' Hl'];
    rewrite Hget in Hg; simplify_eq; cbn [res final trace];
    try congruence; try (rewrite Hmnt in Hm'; by destruct Hm');
    rewrite Hl', fmap_app; cbn [fmap list_fmap ev].
  - split; [done|]. split.
    + intros x [Hx|Hx]%elem_of_app Hs.
      * apply Hpre in Hx. congruence.
      * rewrite !elem_of_cons, elem_of_nil in Hx.
        destruct Hx as [->|[->|[->|[]]]]; done.
    + split; [done|]. apply elem_of_app. right. repeat constructor.
  - split; [by rewrite delete_id|]. split.
    + intros x [Hx|Hx]%elem_of_app Hs.
      * apply Hpre in Hx. congruence.
      * rewrite !elem_of_cons, elem_of_nil in Hx.
        destruct Hx as [->|[->|[]]]; done.
    + split; [done|].
      intros x [Hx|Hx]%elem_of_app; [by apply Hpre|].
      rewrite !elem_of_cons, elem_of_nil in Hx.
      destruct Hx as [->|[->|[]]]; done.
Qed.

(** The remote version is non-empty and mounted, and the record holds it
    wrapped in surrounding whitespace. *)
Lemma loop_body_padded remote area n fs r l rws :
  remote (version_url area) = GetReturns r ->
  is_error r = false ->
  Py.strip (text r) <> "" ->
  is_Some (fs !! mnt_file area (Py.strip (text r))) ->
  Py.only_space l = true ->
  Py.only_space rws = true ->
  fs !! local_version_file area = Some (l +:+ Py.strip (text r) +:+ rws) ->
  l +:+ Py.strip (text r) +:+ rws <> Py.strip (text r) ->
  res (exec remote (loop_body area n) fs) = Returned true
  /\ final (exec remote (loop_body area n) fs)
     = <[local_version_file area := Py.strip (text r)]> fs
  /\ EvWrite (local_version_file area) (Py.strip (text r))
       ∈ events (exec remote (loop_body area n) fs).
Proof.
  intros Hget Herr Hv Hmnt Hl Hrws Hloc Hpad. unfold events.
  pose proof (PyFacts.padded_token_differs (text r) l rws Hv Hl Hrws Hpad)
    as Hdiff.
  destruct (loop_body_view remote area n fs)
    as [Hg|r' Hg He|r' c Hg He Hv' Hl'|r' Hg He Hv' Hl'|r' c Hg He Hv' Hm' Hl'
       |r' Hg He Hv' Hm' Hl'|r' Hg He Hv' Hm' Hl'|r' Hg He Hv' Hm' Hl'];
    rewrite Hget in Hg; simplify_eq; cbn [res final trace];
    try congruence; try (rewrite Hm' in Hmnt; by destruct Hmnt).
  - split; [done|]. split; [done|]. rewrite fmap_app. apply elem_of_app.
    right. simpl. repeat constructor.
  - rewrite Hloc in Hl'. simpl in Hl'. congruence.
Qed.

(** ** Store operations and visible changes *)

(** Without a store operation every step leaves the file system as it
    was. *)
Lemma loop_body_no_change_trace remote area n fs :
  existsb store_change (events (exec remote (loop_body area n) fs)) = false ->
  Forall (fun st => post st = fs) (trace (exec remote (loop_body area n) fs)).
Proof.
  unfold events.
  destruct (loop_body_view remote area n fs); cbn [trace];
    rewrite ?fmap_app, ?existsb_app, ?lookup_trace_no_change;
    cbn [fmap list_fmap ev existsb store_change orb]; try done; intros _;
    rewrite ?Forall_app;
    repeat match goal with
      | |- _ /\ _ => split
      | |- Forall _ (lookup_trace _ _ _) => apply lookup_trace_post
      | |- Forall _ (_ :: _) => apply Forall_cons_2; [done|]
      | |- Forall _ [] => apply Forall_nil_2
      end.
Qed.

Lemma for_areas_no_change_trace remote l n fs :
  existsb store_change (events (exec remote (for_areas l n) fs)) = false ->
  Forall (fun st => post st = fs) (trace (exec remote (for_areas l n) fs)).
Proof.
  revert n fs. induction l as [|a l IH]; intros n fs; [constructor|].
  rewrite exec_for_areas_cons. cbn zeta.
  pose proof (loop_body_no_change remote a n fs) as Hf.
  pose proof (loop_body_no_change_trace remote a n fs) as Ht.
  destruct (res (exec remote (loop_body a n) fs)) as [n1|e]; [|done].
  unfold events in *. cbn [trace]. rewrite fmap_app, existsb_app.
  intros [H1 H2]%orb_false_iff. apply Forall_app. split; [auto|].
  apply IH in H2. rewrite (Hf H1) in H2 |- *. exact H2.
Qed.

(** A store operation shows: at some step the record of the area differs
    from what it was before the iteration. *)
Lemma loop_body_change_visible remote area n fs :
  existsb store_change (events (exec remote (loop_body area n) fs)) = true ->
  exists st, st ∈ trace (exec remote (loop_body area n) fs)
             /\ post st !! local_version_file area
                <> fs !! local_version_file area.
Proof.
  unfold events.
  destruct (loop_body_view remote area n fs)
    as [Hg|r' Hg He|r' c Hg He Hv' Hl'|r' Hg He Hv' Hl'|r' c Hg He Hv' Hm' Hl'
       |r' Hg He Hv' Hm' Hl'|r' Hg He Hv' Hm' Hl'|r' Hg He Hv' Hm' Hl'];
    cbn [trace];
    rewrite ?fmap_app, ?existsb_app, ?lookup_trace_no_change;
    cbn [fmap list_fmap ev existsb store_change orb]; try done; intros _.
  - exists (Step (EvUnlink (local_version_file area))
              (delete (local_version_file area) fs)).
    split; [apply elem_of_app; right; repeat constructor|].
    cbn [post]. rewrite lookup_delete_eq. congruence.
  - exists (Step (EvUnlink (local_version_file area))
              (delete (local_version_file area) fs)).
    split; [apply elem_of_app; right; repeat constructor|].
    cbn [post]. rewrite lookup_delete_eq. congruence.
  - destruct (decide (fs !! local_version_file area = Some "")) as [He0|Hne0].
    + exists (Step (EvWrite (local_version_file area) (Py.strip (text r')))
                (<[local_version_file area := Py.strip (text r')]> fs)).
      split; [apply elem_of_app; right; repeat constructor|].
      cbn [post]. rewrite lookup_insert_eq, He0. congruence.
    + exists (Step (EvOpenW (local_version_file area))
                (<[local_version_file area := ""]> fs)).
      split; [apply elem_of_app; right; repeat constructor|].
      cbn [post]. rewrite lookup_insert_eq. congruence.
Qed.

Lemma for_areas_change_visible remote l n fs :
  existsb store_change (events (exec remote (for_areas l n) fs)) = true ->
  exists a st, a ∈ l /\ st ∈ trace (exec remote (for_areas l n) fs)
               /\ post st !! local_version_file a
                  <> fs !! local_version_file a.
Proof.
  revert n fs. induction l as [|a l IH]; intros n fs; [done|].
  rewrite exec_for_areas_cons. cbn zeta.
  pose proof (loop_body_no_change remote a n fs) as Hf.
  pose proof (loop_body_change_visible remote a n fs) as Hv.
  destruct (existsb store_change (events (exec remote (loop_body a n) fs)))
    eqn:Hc.
  - destruct (Hv eq_refl) as (st & Hst & Hne). intros _. exists a, st.
    split; [constructor|]. split; [|done].
    destruct (res (exec remote (loop_body a n) fs)); cbn [trace]; [|done].
    apply elem_of_app. by left.
  - destruct (res (exec remote (loop_body a n) fs)) as [n1|e]; cbn [trace].
    + unfold events in *. cbn [trace]. rewrite fmap_app, existsb_app, Hc.
      cbn [orb]. rewrite (Hf eq_refl). intros H.
      destruct (IH n1 fs H) as (a' & st & Ha' & Hst & Hne).
      exists a', st. split; [by constructor|]. split; [|done].
      apply elem_of_app. by right.
    + unfold events in *. cbn [trace]. by rewrite Hc.
Qed.

(** ** One area inside a run *)

Lemma areas_split pre a post :
  areas = pre ++ a :: post -> (a ∉ pre) /\ (a ∉ post).
Proof.
  intros Heq. pose proof areas_NoDup as Hnd. rewrite Heq in Hnd.
  apply NoDup_app in Hnd as (_ & Hpre & Hpost).
  apply NoDup_cons in Hpost as [Hpost _]. split; [|done].
  intros Hin. apply (Hpre a Hin). by constructor.
Qed.

(** Record operations of [a] are not operations of a loop over other
    areas. *)
Lemma for_areas_other_record remote l n fs a x :
  a ∉ l ->
  x ∈ events (exec remote (for_areas l n) fs) ->
  ~ record_event a x.
Proof.
  intros Ha Hx Hrec.
  eapply Forall_forall in Hx; [|apply for_areas_event_of_area].
  destruct Hx as (a0 & Ha0 & Hx).
  apply (record_event_of_area _ _ _ Hrec) in Hx. by subst.
Qed.

(** The iteration for [a] inside a run: it starts from a file system that
    agrees with the initial one on the record and the artifacts of [a]; what
    it leaves in the record is what the run leaves; its operations are
    operations of the run, and they are the only operations of the run on
    the record of [a]; once it has set the flag, a run that returns, returns
    [true]. *)
Lemma deploy_tileset_iteration remote fs pre a post :
  areas = pre ++ a :: post ->
  Forall (lookup_ok remote) pre ->
  exists n1,
    let R := exec remote deploy_tileset fs in
    let R0 := exec remote (for_areas pre false) fs in
    let Ra := exec remote (loop_body a n1) (final R0) in
    res R0 = Returned n1
    /\ final R0 !! local_version_file a = fs !! local_version_file a
    /\ (forall v, final R0 !! mnt_file a v = fs !! mnt_file a v)
    /\ final R !! local_version_file a = final Ra !! local_version_file a
    /\ (forall x, x ∈ events Ra -> x ∈ events R)
    /\ (forall x, x ∈ events R -> record_event a x -> x ∈ events Ra)
    /\ (forall b, res R = Returned b ->
                  exists b', res Ra = Returned b' /\ (b' = true -> b = true)).
Proof.
  intros Heq Hpre. destruct (areas_split pre a post Heq) as [Hnpre Hnpost].
  destruct (for_areas_returns remote pre false fs Hpre) as [n1 Hn1].
  exists n1. cbn zeta. split; [done|].
  split.
  { apply for_areas_frame. intros x Hx H.
    apply local_version_file_inj in H. by subst. }
  split.
  { intros v. apply for_areas_frame. intros x Hx H. symmetry in H.
    by apply local_version_file_not_mnt in H. }
  unfold deploy_tileset. rewrite Heq, exec_for_areas_app. cbn zeta.
  rewrite Hn1, exec_for_areas_cons. cbn zeta.
  pose proof (for_areas_other_record remote pre false fs a) as Hother.
  set (fs1 := final (exec remote (for_areas pre false) fs)).
  destruct (res (exec remote (loop_body a n1) fs1)) as [b'|e] eqn:Hra;
    cbn [res final trace].
  - split.
    { apply for_areas_frame. intros x Hx H.
      apply local_version_file_inj in H. by subst. }
    split.
    { intros x Hx. unfold events in *. cbn [trace]. rewrite !fmap_app.
      apply elem_of_app. right. apply elem_of_app. by left. }
    split.
    { intros x Hx Hrec. unfold events in *. cbn [trace] in Hx.
      rewrite !fmap_app, !elem_of_app in Hx. destruct Hx as [Hx|[Hx|Hx]].
      - by destruct (Hother x Hnpre Hx).
      - done.
      - by destruct (for_areas_other_record remote post b' _ a x Hnpost Hx). }
    intros b Hb. exists b'. split; [done|]. intros ->.
    by apply for_areas_flag in Hb.
  - split; [done|]. split.
    { intros x Hx. unfold events in *. cbn [trace]. rewrite !fmap_app.
      apply elem_of_app. by right. }
    split; [|done].
    intros x Hx Hrec. unfold events in *. cbn [trace] in Hx.
    rewrite !fmap_app, !elem_of_app in Hx. destruct Hx as [Hx|Hx]; [|done].
    by destruct (Hother x Hnpre Hx).
Qed.

(** ** Runs stopped by a failing lookup *)

(** The run of [deploy_tileset] stopped by a failing lookup: the areas
    before the failing one have been reconciled, the failing lookup is the
    last operation, and the exception is the result. *)
Lemma deploy_tileset_raises remote fs pre a post e :
  areas = pre ++ a :: post ->
  Forall (lookup_ok remote) pre ->
  lookup_raises remote a e ->
  exec remote deploy_tileset fs =
    let R0 := exec remote (for_areas pre false) fs in
    Result (Raised e) (final R0)
      (trace R0 ++ [Step (EvGet (version_url a) (remote (version_url a)))
                      (final R0)]).
Proof.
  intros Heq Hpre Ha. unfold deploy_tileset. rewrite Heq.
  by apply for_areas_raises.
Qed.

(** No operation of such a run is a record operation of the failing area
    or of a later one, or a lookup for a later one. *)
Lemma failed_run_skips remote fs pre a post e a' x :
  areas = pre ++ a :: post ->
  Forall (lookup_ok remote) pre ->
  lookup_raises remote a e ->
  a' ∈ a :: post ->
  x ∈ events (exec remote deploy_tileset fs) ->
  ~ record_event a' x /\ (a' ∈ post -> forall g, x <> EvGet (version_url a') g).
Proof.
  intros Heq Hpre Ha Ha' Hx.
  rewrite (deploy_tileset_raises remote fs pre a post e Heq Hpre Ha) in Hx.
  cbn zeta in Hx. unfold events in Hx. cbn [trace] in Hx.
  rewrite fmap_app in Hx. cbn [fmap list_fmap ev] in Hx.
  pose proof areas_NoDup as Hnd. rewrite Heq in Hnd.
  apply NoDup_app in Hnd as (_ & Hdisj & Hnd).
  apply NoDup_cons in Hnd as [Hna _].
  apply elem_of_app in Hx as [Hx|Hx].
  - eapply Forall_forall in Hx; [|apply for_areas_event_of_area].
    destruct Hx as (a0 & Ha0 & Hx).
    assert (a' <> a0) as Hne.
    { intros ->. by apply (Hdisj a0 Ha0). }
    split.
    + intros Hrec. by apply (record_event_of_area _ _ _ Hrec) in Hx.
    + intros _ g ->. simpl in Hx. by apply version_url_inj in Hx.
  - apply list_elem_of_singleton in Hx as ->. split.
    + by intros [|[|[v ?]]].
    + intros Hpost g H.
      assert (version_url a = version_url a') as H' by congruence.
      apply version_url_inj in H'. by subst.
Qed.

(** * The claims *)

(** ** C1 *)

(** C1, counterexample.  The lookup for planet fails while monaco has a new
    version ready: the run raises instead of returning a flag, and monaco is
    not reconciled (no lookup, no record), although its iteration alone would
    adopt "v7". *)
Lemma lookup_failure_not_isolated :
  lookup_raises Scenario.planet_down "planet" RequestException
  /\ lookup_ok Scenario.planet_down "monaco"
  /\ res (exec Scenario.planet_down deploy_tileset Scenario.monaco_ready)
     = Raised RequestException
  /\ events (exec Scenario.planet_down deploy_tileset Scenario.monaco_ready)
     = [EvGet (version_url "planet") GetRaises]
  /\ final (exec Scenario.planet_down deploy_tileset Scenario.monaco_ready)
       !! local_version_file "monaco" = None
  /\ final (exec Scenario.planet_down (loop_body "monaco" false)
              Scenario.monaco_ready)
       !! local_version_file "monaco" = Some "v7".
Proof.
  split; [by left|]. split; [by eexists|]. by vm_compute.
Qed.

(** C1, amended.  A lookup failure (transport error or error status) for an
    area aborts the whole run at that area: the exception is the result of
    the run, so no aggregate flag is reported; the operations of the run are
    those of reconciling the areas before the failing one, followed by the
    failed lookup; no lookup and no record operation is made for any later
    area. *)
Theorem lookup_failure_aborts_run remote fs pre a post e :
  areas = pre ++ a :: post ->
  Forall (lookup_ok remote) pre ->
  lookup_raises remote a e ->
  res (exec remote deploy_tileset fs) = Raised e
  /\ events (exec remote deploy_tileset fs)
     = events (exec remote (for_areas pre false) fs)
       ++ [EvGet (version_url a) (remote (version_url a))]
  /\ forall a' x,
       a' ∈ post ->
       x ∈ events (exec remote deploy_tileset fs) ->
       (forall g, x <> EvGet (version_url a') g) /\ ~ record_event a' x.
Proof.
  intros Heq Hpre Ha.
  split; [by rewrite (deploy_tileset_raises remote fs pre a post e)|].
  split.
  { rewrite (deploy_tileset_raises remote fs pre a post e) by done.
    unfold events. cbn [trace]. by rewrite fmap_app. }
  intros a' x Ha' Hx.
  destruct (failed_run_skips remote fs pre a post e a' x) as [Hrec Hget];
    auto. by constructor.
Qed.

(** The hypotheses of the theorem hold when the very first lookup fails. *)
Lemma lookup_failure_aborts_run_witness :
  areas = [] ++ "planet" :: ["monaco"]
  /\ Forall (lookup_ok Scenario.planet_down) []
  /\ lookup_raises Scenario.planet_down "planet" RequestException
  /\ res (exec Scenario.planet_down deploy_tileset Scenario.monaco_ready)
     = Raised RequestException.
Proof.
  assert (H1 : areas = [] ++ "planet" :: ["monaco"]) by reflexivity.
  assert (H2 : Forall (lookup_ok Scenario.planet_down) []) by constructor.
  assert (H3 : lookup_raises Scenario.planet_down "planet" RequestException).
  { left. split; reflexivity. }
  split; [exact H1|]. split; [exact H2|]. split; [exact H3|].
  exact (proj1 (lookup_failure_aborts_run Scenario.planet_down
                  Scenario.monaco_ready [] "planet" ["monaco"]
                  RequestException H1 H2 H3)).
Defined.

(** ** C2 *)

(** C2, counterexample.  Planet has local record "v3", the remote version is
    "v4" and its artifact is not mounted: the run deletes the record and
    returns [true]; the record is not left untouched. *)
Lemma unavailable_candidate_record_not_kept :
  Scenario.planet_at_v3 !! local_version_file "planet" = Some "v3"
  /\ Scenario.planet_v4 (version_url "planet") = Scenario.ok "v4"
  /\ Scenario.planet_at_v3 !! mnt_file "planet" "v4" = None
  /\ final (exec Scenario.planet_v4 deploy_tileset Scenario.planet_at_v3)
       !! local_version_file "planet" = None
  /\ EvUnlink (local_version_file "planet")
       ∈ events (exec Scenario.planet_v4 deploy_tileset Scenario.planet_at_v3)
  /\ res (exec Scenario.planet_v4 deploy_tileset Scenario.planet_at_v3)
     = Returned true.
Proof.
  repeat split; try by vm_compute.
  vm_compute. repeat constructor.
Qed.

(** C2, amended.  For every area with an existing local record V1 whose
    iteration is reached, when the remote version is a different non-empty
    V2 whose artifact is not available, the run deletes the local record:
    the area has no record when the run ends, the deletion is one of the
    operations of the run, and a run that returns, returns [true]. *)
Theorem unavailable_candidate_retires_record remote fs pre a post r v1 :
  areas = pre ++ a :: post ->
  Forall (lookup_ok remote) pre ->
  remote (version_url a) = GetReturns r ->
  is_error r = false ->
  fs !! local_version_file a = Some v1 ->
  Py.strip (text r) <> "" ->
  Py.strip (text r) <> v1 ->
  fs !! mnt_file a (Py.strip (text r)) = None ->
  final (exec remote deploy_tileset fs) !! local_version_file a = None
  /\ EvUnlink (local_version_file a) ∈ events (exec remote deploy_tileset fs)
  /\ forall b, res (exec remote deploy_tileset fs) = Returned b -> b = true.
Proof.
  intros Heq Hpre Hget Herr Hloc Hv _ Hmnt.
  destruct (deploy_tileset_iteration remote fs pre a post Heq Hpre)
    as (n1 & _ & Hl & Hm & Hfin & Hin & _ & Hres).
  destruct (loop_body_unavailable remote a n1
              (final (exec remote (for_areas pre false) fs)) r Hget Herr Hv)
    as (Hf & _ & Hcase); [by rewrite Hm|].
  rewrite Hl, Hloc in Hcase. destruct Hcase as [Hr Hu].
  split; [by rewrite Hfin, Hf, lookup_delete_eq|]. split; [by apply Hin|].
  intros b Hb. destruct (Hres b Hb) as (b' & Hb' & Himp).
  apply Himp. congruence.
Qed.

(** The hypotheses of the theorem hold for planet at "v3" with "v4" announced
    and not mounted. *)
Lemma unavailable_candidate_retires_record_witness :
  final (exec Scenario.planet_v4 deploy_tileset Scenario.planet_at_v3)
    !! local_version_file "planet" = None.
Proof.
  refine (proj1 (unavailable_candidate_retires_record Scenario.planet_v4
                   Scenario.planet_at_v3 [] "planet" ["monaco"]
                   {| status_code := 200; text := "v4" |} "v3"
                   _ _ _ _ _ _ _ _)).
  - reflexivity.
  - constructor.
  - reflexivity.
  - reflexivity.
  - by vm_compute.
  - by vm_compute.
  - by vm_compute.
  - by vm_compute.
Defined.

(** ** C3 *)

(** C3.  For every area whose iteration is reached and whose remote version
    is non-empty while the artifact of that version is not available: the
    area has no record when the run ends, and the only operation the run can
    make on the record is its deletion.  If a local record exists, it is
    deleted and a run that returns, returns [true]; if none exists, the run
    makes no operation on the record of that area. *)
Theorem unavailable_artifact_retires remote fs pre a post r :
  areas = pre ++ a :: post ->
  Forall (lookup_ok remote) pre ->
  remote (version_url a) = GetReturns r ->
  is_error r = false ->
  Py.strip (text r) <> "" ->
  fs !! mnt_file a (Py.strip (text r)) = None ->
  final (exec remote deploy_tileset fs) !! local_version_file a = None
  /\ (forall x, x ∈ events (exec remote deploy_tileset fs) ->
                record_event a x -> x = EvUnlink (local_version_file a))
  /\ match fs !! local_version_file a with
     | Some _ =>
         EvUnlink (local_version_file a)
           ∈ events (exec remote deploy_tileset fs)
         /\ forall b, res (exec remote deploy_tileset fs) = Returned b ->
                      b = true
     | None =>
         forall x, x ∈ events (exec remote deploy_tileset fs) ->
                   ~ record_event a x
     end.
Proof.
  intros Heq Hpre Hget Herr Hv Hmnt.
  destruct (deploy_tileset_iteration remote fs pre a post Heq Hpre)
    as (n1 & _ & Hl & Hm & Hfin & Hin & Hrec & Hres).
  destruct (loop_body_unavailable remote a n1
              (final (exec remote (for_areas pre false) fs)) r Hget Herr Hv)
    as (Hf & Hsc & Hcase); [by rewrite Hm|].
  rewrite Hl in Hcase.
  split; [by rewrite Hfin, Hf, lookup_delete_eq|]. split.
  { intros x Hx Hr. apply Hsc; [by apply Hrec|].
    by eapply record_event_store_change. }
  destruct (fs !! local_version_file a) as [c|].
  - destruct Hcase as [Hr Hu]. split; [by apply Hin|].
    intros b Hb. destruct (Hres b Hb) as (b' & Hb' & Himp).
    apply Himp. congruence.
  - destruct Hcase as [_ Hno]. intros x Hx Hr.
    specialize (Hno x (Hrec x Hx Hr)).
    apply record_event_store_change in Hr. congruence.
Qed.

(** The hypotheses of the theorem hold for planet with "v4" announced and not
    mounted. *)
Lemma unavailable_artifact_retires_witness :
  final (exec Scenario.planet_v4 deploy_tileset Scenario.planet_at_v3)
    !! local_version_file "planet" = None.
Proof.
  refine (proj1 (unavailable_artifact_retires Scenario.planet_v4
                   Scenario.planet_at_v3 [] "planet" ["monaco"]
                   {| status_code := 200; text := "v4" |} _ _ _ _ _ _)).
  - reflexivity.
  - constructor.
  - reflexivity.
  - reflexivity.
  - by vm_compute.
  - by vm_compute.
Defined.

(** ** C4 *)

(** C4.  Whenever an operation of a run writes version V into the record of
    area A, a check of the marker file derived from A and V has returned
    [true] earlier in the same run, and that marker file exists; the same
    holds, for some version, whenever the record file of A is opened for
    writing. *)
Theorem write_follows_availability_check remote fs a l1 x l2 :
  events (exec remote deploy_tileset fs) = l1 ++ x :: l2 ->
  (forall v, x = EvWrite (local_version_file a) v ->
             EvExists (mnt_file a v) true ∈ l1
             /\ is_Some (fs !! mnt_file a v))
  /\ (x = EvOpenW (local_version_file a) ->
      exists v, EvExists (mnt_file a v) true ∈ l1
                /\ is_Some (fs !! mnt_file a v)).
Proof.
  intros Heq.
  pose proof (for_areas_writes_checked remote areas false fs l1 x l2 Heq)
    as Hchk.
  assert (Hex : forall v, EvExists (mnt_file a v) true ∈ l1 ->
                          is_Some (fs !! mnt_file a v)).
  { intros v Hin. apply (for_areas_exists_true remote areas false fs).
    fold deploy_tileset. rewrite Heq. apply elem_of_app. by left. }
  split.
  - intros v ->. simpl in Hchk. destruct Hchk as (a0 & Ha0 & Hin).
    apply local_version_file_inj in Ha0 as <-. auto.
  - intros ->. simpl in Hchk. destruct Hchk as (a0 & v & Ha0 & Hin).
    apply local_version_file_inj in Ha0 as <-. eauto.
Qed.

(** The hypothesis of the theorem holds at the write of "v7" into the record
    of planet. *)
Lemma write_follows_availability_check_witness :
  EvExists (mnt_file "planet" "v7") true
    ∈ [EvGet (version_url "planet") (Scenario.ok "v7");
       EvPrint "  remote version for planet: v7";
       EvExists (local_version_file "planet") false;
       EvExists (mnt_file "planet" "v7") true;
       EvOpenW (local_version_file "planet")].
Proof.
  refine (proj1 (proj1 (write_follows_availability_check Scenario.planet_v7
                   Scenario.planet_ready "planet" _
                   (EvWrite (local_version_file "planet") "v7")
                   [EvGet (version_url "monaco") (Scenario.ok "");
                    EvPrint "  remote version for monaco: ";
                    EvExists (local_version_file "monaco") false;
                    EvPrint "  remote version not specified"] _)
                  "v7" eq_refl)).
  by vm_compute.
Defined.

(** ** C5 *)

(** C5.  When a run returns, the returned flag is [true] if and only if some
    operation of the run created, updated or deleted the local version
    record of one of the areas; and, equivalently, if and only if at some
    point of the run the record of one of the areas differs from what it was
    before the run. *)
Theorem flag_iff_record_changed remote fs b :
  res (exec remote deploy_tileset fs) = Returned b ->
  (b = true <->
   exists a x, a ∈ areas /\ x ∈ events (exec remote deploy_tileset fs)
               /\ record_event a x)
  /\ (b = true <->
      exists a s, a ∈ areas
                  /\ s ∈ crash_states fs (exec remote deploy_tileset fs)
                  /\ s !! local_version_file a <> fs !! local_version_file a).
Proof.
  intros Hres. unfold deploy_tileset in *.
  apply for_areas_flag in Hres. rewrite orb_false_l in Hres. split; split.
  - intros ->. symmetry in Hres. apply existsb_exists in Hres as (x & Hx & Hs).
    apply list_elem_of_In in Hx.
    pose proof (for_areas_record_events remote areas false fs) as Hrec.
    eapply Forall_forall in Hrec; [|exact Hx].
    destruct (Hrec Hs) as (a & Ha & Hra). eauto.
  - intros (a & x & _ & Hx & Hrec). rewrite Hres. apply existsb_exists.
    exists x. split; [by apply list_elem_of_In|].
    by eapply record_event_store_change.
  - intros ->. symmetry in Hres.
    destruct (for_areas_change_visible remote areas false fs Hres)
      as (a & st & Ha & Hst & Hne).
    exists a, (post st). split; [done|]. split; [|done].
    unfold crash_states. apply elem_of_cons. right.
    apply list_elem_of_fmap. eauto.
  - intros (a & s0 & _ & Hs & Hne). destruct b; [done|]. exfalso.
    symmetry in Hres. apply for_areas_no_change_trace in Hres.
    unfold crash_states in Hs. apply elem_of_cons in Hs as [->|Hs]; [done|].
    apply list_elem_of_fmap in Hs as (st & -> & Hst).
    eapply Forall_forall in Hres; [|exact Hst]. simpl in Hres.
    by rewrite Hres in Hne.
Qed.

(** The hypothesis of the theorem holds for a run that adopts "v7" for planet
    and returns [true]. *)
Lemma flag_iff_record_changed_witness :
  exists a x,
    a ∈ areas
    /\ x ∈ events (exec Scenario.planet_v7 deploy_tileset Scenario.planet_ready)
    /\ record_event a x.
Proof.
  refine (proj1 (proj1 (flag_iff_record_changed Scenario.planet_v7
                          Scenario.planet_ready true _)) eq_refl).
  by vm_compute.
Defined.

(** ** C6 *)

(** C6, counterexample.  Two states in which the second of two runs does not
    return [false].  With the lookup for planet failing, the second run raises
    like the first.  With a mounted remote version that contains a carriage
    return, the record written by the first run reads back with a line feed
    in its place, so the second run writes the record again and returns
    [true]. *)
Lemma second_run_not_always_unchanged :
  res (exec Scenario.planet_down deploy_tileset
         (final (exec Scenario.planet_down deploy_tileset ∅)))
  = Raised RequestException
  /\ res (exec Scenario.planet_cr deploy_tileset Scenario.planet_cr_mounted)
     = Returned true
  /\ res (exec Scenario.planet_cr deploy_tileset
            (final (exec Scenario.planet_cr deploy_tileset
                      Scenario.planet_cr_mounted)))
     = Returned true
  /\ EvWrite (local_version_file "planet") Scenario.cr_version
       ∈ events (exec Scenario.planet_cr deploy_tileset
                   (final (exec Scenario.planet_cr deploy_tileset
                             Scenario.planet_cr_mounted))).
Proof.
  repeat split; try by vm_compute.
  vm_compute. repeat constructor.
Qed.

(** C6, amended.  For every state of the server, the local store and the
    mounted artifacts in which the first run returns and every remote version
    whose artifact is mounted contains no carriage return, a second run on
    the file system left by the first returns [false], leaves the file system
    unchanged and performs no store operation: every area is unchanged. *)
Theorem second_run_is_noop remote fs b :
  res (exec remote deploy_tileset fs) = Returned b ->
  mounted_versions_cr_free remote fs areas ->
  res (exec remote deploy_tileset (final (exec remote deploy_tileset fs)))
  = Returned false
  /\ final (exec remote deploy_tileset (final (exec remote deploy_tileset fs)))
     = final (exec remote deploy_tileset fs)
  /\ forall x,
       x ∈ events (exec remote deploy_tileset
                     (final (exec remote deploy_tileset fs))) ->
       store_change x = false.
Proof.
  intros Hres Hcr. unfold deploy_tileset in *.
  pose proof (for_areas_settles remote areas false fs b Hres Hcr) as Hs.
  destruct (for_areas_settled_noop remote areas false _ Hs) as (H1 & H2 & H3).
  split; [done|]. split; [done|].
  intros x Hx. destruct (store_change x) eqn:Hsx; [|done].
  rewrite <- H3. symmetry. apply existsb_exists. exists x.
  split; [by apply list_elem_of_In|done].
Qed.

(** The hypotheses of the theorem hold for a first run that adopts "v7" for
    planet. *)
Lemma second_run_is_noop_witness :
  res (exec Scenario.planet_v7 deploy_tileset
         (final (exec Scenario.planet_v7 deploy_tileset
                   Scenario.planet_ready)))
  = Returned false.
Proof.
  refine (proj1 (second_run_is_noop Scenario.planet_v7 Scenario.planet_ready
                   true _ _)).
  - by vm_compute.
  - intros area r Ha Hget _.
    apply elem_of_cons in Ha as [->|Ha];
      [|apply elem_of_cons in Ha as [->|Ha]; [|by apply elem_of_nil in Ha]];
      vm_compute in Hget; injection Hget as <-; reflexivity.
Defined.

(** ** C7 *)

(** C7.  For every area whose iteration is reached and whose remote version
    is empty: the area has no record when the run ends, and the only
    operation the run can make on the record is its deletion, so no record is
    created.  If a local record exists, it is deleted and a run that returns,
    returns [true]; if none exists, the run makes no operation on the record
    of that area. *)
Theorem empty_remote_retires remote fs pre a post r :
  areas = pre ++ a :: post ->
  Forall (lookup_ok remote) pre ->
  remote (version_url a) = GetReturns r ->
  is_error r = false ->
  Py.strip (text r) = "" ->
  final (exec remote deploy_tileset fs) !! local_version_file a = None
  /\ (forall x, x ∈ events (exec remote deploy_tileset fs) ->
                record_event a x -> x = EvUnlink (local_version_file a))
  /\ match fs !! local_version_file a with
     | Some _ =>
         EvUnlink (local_version_file a)
           ∈ events (exec remote deploy_tileset fs)
         /\ forall b, res (exec remote deploy_tileset fs) = Returned b ->
                      b = true
     | None =>
         forall x, x ∈ events (exec remote deploy_tileset fs) ->
                   ~ record_event a x
     end.
Proof.
  intros Heq Hpre Hget Herr Hv.
  destruct (deploy_tileset_iteration remote fs pre a post Heq Hpre)
    as (n1 & _ & Hl & Hm & Hfin & Hin & Hrec & Hres).
  destruct (loop_body_empty_remote remote a n1
              (final (exec remote (for_areas pre false) fs)) r Hget Herr Hv)
    as (Hf & Hsc & Hcase).
  rewrite Hl in Hcase.
  split; [by rewrite Hfin, Hf, lookup_delete_eq|]. split.
  { intros x Hx Hr. apply Hsc; [by apply Hrec|].
    by eapply record_event_store_change. }
  destruct (fs !! local_version_file a) as [c|].
  - destruct Hcase as [Hr Hu]. split; [by apply Hin|].
    intros b Hb. destruct (Hres b Hb) as (b' & Hb' & Himp).
    apply Himp. congruence.
  - destruct Hcase as [_ Hno]. intros x Hx Hr.
    specialize (Hno x (Hrec x Hx Hr)).
    apply record_event_store_change in Hr. congruence.
Qed.

(** The hypotheses of the theorem hold for monaco, reached after planet, with
    nothing published and record "v5". *)
Lemma empty_remote_retires_witness :
  final (exec Scenario.nothing_published deploy_tileset Scenario.monaco_at_v5)
    !! local_version_file "monaco" = None.
Proof.
  refine (proj1 (empty_remote_retires Scenario.nothing_published
                   Scenario.monaco_at_v5 ["planet"] "monaco" []
                   {| status_code := 200; text := "" |} _ _ _ _ _)).
  - reflexivity.
  - constructor; [|constructor]. eexists. split; reflexivity.
  - reflexivity.
  - reflexivity.
  - reflexivity.
Defined.

(** ** C8 *)

(** C8, counterexample.  Planet has record "v3" and the run adopts "v4".  The
    record of planet at the crash points of the run, in order: "v3" until the
    record file is opened for writing, then the empty text, then "v4".  A
    crash right after the open leaves neither the old nor the new value. *)
Lemma record_write_not_atomic :
  (fun s : files => s !! local_version_file "planet")
    <$> crash_states Scenario.planet_v4_mounted
          (exec Scenario.planet_v4 deploy_tileset Scenario.planet_v4_mounted)
  = [Some "v3"; Some "v3"; Some "v3"; Some "v3"; Some "v3"; Some "v3";
     Some ""; Some "v4"; Some "v4"; Some "v4"; Some "v4"; Some "v4"].
Proof. by vm_compute. Qed.

(** C8, amended.  A write of a local version record is done in place: the
    record file is opened for writing, which empties it, and the version is
    written afterwards.  So whenever a run writes the record of an area, a
    crash at some point of that run leaves the record empty; and at every
    point of a run the record of an area holds what it held before the run,
    is absent, is empty, or holds the remote version of the area. *)
Theorem record_write_truncates_first remote fs a v :
  EvWrite (local_version_file a) v ∈ events (exec remote deploy_tileset fs) ->
  (exists s, s ∈ crash_states fs (exec remote deploy_tileset fs)
             /\ s !! local_version_file a = Some "")
  /\ forall s a',
       s ∈ crash_states fs (exec remote deploy_tileset fs) ->
       record_states remote fs a' (s !! local_version_file a').
Proof.
  intros Hw. unfold deploy_tileset in *. split.
  - destruct (for_areas_write_truncates remote areas false fs _ _ Hw)
      as (st & Hst & _ & Hempty).
    exists (post st). split; [|done]. unfold crash_states.
    apply elem_of_cons. right. apply list_elem_of_fmap. eauto.
  - intros s a' Hs. unfold crash_states in Hs.
    apply elem_of_cons in Hs as [->|Hs]; [by left|].
    apply (for_areas_record_states remote areas false fs). by right.
Qed.

(** The hypothesis of the theorem holds for a run that replaces "v3" by "v4"
    in the record of planet. *)
Lemma record_write_truncates_first_witness :
  exists s,
    s ∈ crash_states Scenario.planet_v4_mounted
          (exec Scenario.planet_v4 deploy_tileset Scenario.planet_v4_mounted)
    /\ s !! local_version_file "planet" = Some "".
Proof.
  refine (proj1 (record_write_truncates_first Scenario.planet_v4
                   Scenario.planet_v4_mounted "planet" "v4" _)).
  vm_compute. repeat constructor.
Defined.

(** ** C9 *)

(** C9.  When the lookup for the i-th area raises (the areas before it having
    been looked up successfully), the exception is the result of the run; the
    file system the run leaves is exactly the one left by reconciling the
    earlier areas, so their record changes persist; the records of the i-th
    and of every later area are as before the run, and no operation of the
    run creates, updates or deletes them. *)
Theorem lookup_exception_propagates remote fs pre a post e :
  areas = pre ++ a :: post ->
  Forall (lookup_ok remote) pre ->
  lookup_raises remote a e ->
  res (exec remote deploy_tileset fs) = Raised e
  /\ final (exec remote deploy_tileset fs)
     = final (exec remote (for_areas pre false) fs)
  /\ forall a',
       a' ∈ a :: post ->
       final (exec remote deploy_tileset fs) !! local_version_file a'
       = fs !! local_version_file a'
       /\ forall x, x ∈ events (exec remote deploy_tileset fs) ->
                    ~ record_event a' x.
Proof.
  intros Heq Hpre Ha.
  split; [by rewrite (deploy_tileset_raises remote fs pre a post e)|].
  split; [by rewrite (deploy_tileset_raises remote fs pre a post e)|].
  intros a' Ha'. split.
  - rewrite (deploy_tileset_raises remote fs pre a post e) by done.
    cbn [final]. apply for_areas_frame. intros a0 Ha0 H.
    apply local_version_file_inj in H. subst a0.
    pose proof areas_NoDup as Hnd. rewrite Heq in Hnd.
    apply NoDup_app in Hnd as (_ & Hdisj & _). by apply (Hdisj a').
  - intros x Hx.
    by destruct (failed_run_skips remote fs pre a post e a' x).
Qed.

(** The hypotheses of the theorem hold when planet is reconciled and the
    lookup for monaco fails. *)
Lemma lookup_exception_propagates_witness :
  areas = ["planet"] ++ "monaco" :: []
  /\ Forall (lookup_ok Scenario.monaco_down) ["planet"]
  /\ lookup_raises Scenario.monaco_down "monaco" RequestException
  /\ res (exec Scenario.monaco_down deploy_tileset Scenario.planet_ready)
     = Raised RequestException
  /\ final (exec Scenario.monaco_down deploy_tileset Scenario.planet_ready)
     = final (exec Scenario.monaco_down (for_areas ["planet"] false)
                Scenario.planet_ready).
Proof.
  assert (H1 : areas = ["planet"] ++ "monaco" :: []) by reflexivity.
  assert (H2 : Forall (lookup_ok Scenario.monaco_down) ["planet"]).
  { constructor; [|constructor]. eexists. split; reflexivity. }
  assert (H3 : lookup_raises Scenario.monaco_down "monaco" RequestException).
  { left. split; reflexivity. }
  split; [exact H1|]. split; [exact H2|]. split; [exact H3|].
  destruct (lookup_exception_propagates Scenario.monaco_down
              Scenario.planet_ready ["planet"] "monaco" []
              RequestException H1 H2 H3) as (Hres & Hfin & _).
  split; [exact Hres|exact Hfin].
Defined.

(** ** C10 *)

(** C10, counterexample.  The record of planet holds "v3" followed by a
    newline, the remote version is "v3", but its artifact is not mounted:
    the run deletes the record, it does not rewrite it with the stripped
    version.  And the comparison is not byte for byte: a record that differs
    from the remote version in a carriage return for a line feed reads back
    equal to it, and the run leaves it alone. *)
Lemma padded_record_not_always_rewritten :
  (Scenario.planet_padded !! local_version_file "planet"
   = Some ("v3" +:+ String Py.LF "")
   /\ Py.strip (text {| status_code := 200; text := "v3" |}) = "v3"
   /\ Scenario.planet_v3 (version_url "planet") = Scenario.ok "v3"
   /\ final (exec Scenario.planet_v3 deploy_tileset Scenario.planet_padded)
        !! local_version_file "planet" = None
   /\ events (exec Scenario.planet_v3 deploy_tileset Scenario.planet_padded)
      = [EvGet (version_url "planet") (Scenario.ok "v3");
         EvPrint "  remote version for planet: v3";
         EvExists (local_version_file "planet") true;
         EvRead (local_version_file "planet");
         EvExists (mnt_file "planet" "v3") false;
         EvPrint "  local version does not exist";
         EvUnlink (local_version_file "planet");
         EvGet (version_url "monaco") (Scenario.ok "");
         EvPrint "  remote version for monaco: ";
         EvExists (local_version_file "monaco") false;
         EvPrint "  remote version not specified"])
  /\ (Scenario.planet_cr_record !! local_version_file "planet"
      <> Some (Py.strip Scenario.lf_version)
      /\ res (exec Scenario.planet_lf deploy_tileset Scenario.planet_cr_record)
         = Returned false
      /\ final (exec Scenario.planet_lf deploy_tileset
                  Scenario.planet_cr_record)
         = Scenario.planet_cr_record).
Proof. repeat split; by vm_compute. Qed.

(** C10, amended.  The remote version is stripped of surrounding whitespace,
    the local record is read, in text mode, without stripping, and the two
    are compared as read; so for every area whose
    iteration is reached, whose remote version is non-empty and has its
    artifact available, and whose record holds the remote version wrapped in
    surrounding whitespace, the run treats the versions as different: it
    writes the stripped version into the record, which holds it when the run
    ends, and a run that returns, returns [true]. *)
Theorem padded_record_is_rewritten remote fs pre a post r l rws :
  areas = pre ++ a :: post ->
  Forall (lookup_ok remote) pre ->
  remote (version_url a) = GetReturns r ->
  is_error r = false ->
  Py.strip (text r) <> "" ->
  is_Some (fs !! mnt_file a (Py.strip (text r))) ->
  Py.only_space l = true ->
  Py.only_space rws = true ->
  fs !! local_version_file a = Some (l +:+ Py.strip (text r) +:+ rws) ->
  l +:+ Py.strip (text r) +:+ rws <> Py.strip (text r) ->
  final (exec remote deploy_tileset fs) !! local_version_file a
  = Some (Py.strip (text r))
  /\ EvWrite (local_version_file a) (Py.strip (text r))
       ∈ events (exec remote deploy_tileset fs)
  /\ forall b, res (exec remote deploy_tileset fs) = Returned b -> b = true.
Proof.
  intros Heq Hpre Hget Herr Hv Hmnt Hl Hrws Hloc Hpad.
  destruct (deploy_tileset_iteration remote fs pre a post Heq Hpre)
    as (n1 & _ & Hl1 & Hm & Hfin & Hin & _ & Hres).
  destruct (loop_body_padded remote a n1
              (final (exec remote (for_areas pre false) fs)) r l rws
              Hget Herr Hv)
    as (Hr & Hf & Hw); [by rewrite Hm|done|done|by rewrite Hl1|done|].
  split; [by rewrite Hfin, Hf, lookup_insert_eq|]. split; [by apply Hin|].
  intros b Hb. destruct (Hres b Hb) as (b' & Hb' & Himp).
  apply Himp. congruence.
Qed.

(** The hypotheses of the theorem hold for planet with "v3" announced and
    mounted and a record holding "v3" and a newline. *)
Lemma padded_record_is_rewritten_witness :
  final (exec Scenario.planet_v3 deploy_tileset Scenario.planet_padded_mounted)
    !! local_version_file "planet" = Some "v3".
Proof.
  refine (proj1 (padded_record_is_rewritten Scenario.planet_v3
                   Scenario.planet_padded_mounted [] "planet" ["monaco"]
                   {| status_code := 200; text := "v3" |}
                   "" (String Py.LF "") _ _ _ _ _ _ _ _ _ _)).
  - reflexivity.
  - constructor.
  - reflexivity.
  - reflexivity.
  - by vm_compute.
  - exists Scenario.marker. by vm_compute.
  - reflexivity.
  - reflexivity.
  - by vm_compute.
  - by vm_compute.
Defined.

(** * Further properties *)

(** ** The reconciliation function *)

Lemma loop_body_decide remote area n fs :
  lookup_ok remote area ->
  exists act,
    decide_area remote fs area = Some act
    /\ res (exec remote (loop_body area n) fs) = Returned (n || changed act)
    /\ final (exec remote (loop_body area n) fs) = apply_action area act fs.
Proof.
  intros (r & Hget & Herr). unfold decide_area. rewrite Hget, Herr. cbn zeta.
  destruct (loop_body_view remote area n fs)
    as [Hg|r' Hg He|r' c Hg He Hv' Hl'|r' Hg He Hv' Hl'|r' c Hg He Hv' Hm' Hl'
       |r' Hg He Hv' Hm' Hl'|r' Hg He Hv' Hm' Hl'|r' Hg He Hv' Hm' Hl'];
    rewrite Hget in Hg; simplify_eq; cbn [res final]; try congruence.
  - rewrite Hv', Hl'. rewrite decide_True by done.
    eexists. split; [done|]. by rewrite orb_true_r.
  - rewrite Hv', Hl'. rewrite decide_True by done.
    eexists. split; [done|]. by rewrite orb_false_r.
  - rewrite decide_False by done. rewrite Hm', Hl'. cbn.
    eexists. split; [done|]. by rewrite orb_true_r.
  - rewrite decide_False by done. rewrite Hm', Hl'. cbn.
    eexists. split; [done|]. by rewrite orb_false_r.
  - rewrite decide_False by done. rewrite bool_decide_eq_true_2 by done.
    rewrite decide_True by congruence.
    eexists. split; [done|]. by rewrite orb_true_r.
  - rewrite decide_False by done. rewrite bool_decide_eq_true_2 by done.
    rewrite decide_False by (intros H; apply H; congruence).
    eexists. split; [done|]. by rewrite orb_false_r.
Qed.

Lemma decide_area_frame remote fs fs' area :
  fs' !! local_version_file area = fs !! local_version_file area ->
  (forall v, fs' !! mnt_file area v = fs !! mnt_file area v) ->
  decide_area remote fs' area = decide_area remote fs area.
Proof.
  intros Hl Hm. unfold decide_area.
  destruct (remote (version_url area)) as [|r]; [done|].
  destruct (is_error r); [done|]. cbn zeta. by rewrite Hl, Hm.
Qed.

Lemma apply_action_other area act fs p :
  p <> local_version_file area -> apply_action area act fs !! p = fs !! p.
Proof.
  intros Hp. destruct act; simpl; [done| |].
  - by rewrite lookup_delete_ne.
  - by rewrite lookup_insert_ne.
Qed.

Lemma apply_action_record area act fs :
  apply_action area act fs !! local_version_file area
  = record_after act (fs !! local_version_file area).
Proof.
  destruct act; simpl; [done| |].
  - by rewrite lookup_delete_eq.
  - by rewrite lookup_insert_eq.
Qed.

(** The loop computes the actions one after the other; with no area listed
    twice, each is the action planned on the initial file system. *)
Lemma for_areas_reconcile remote fs0 l n fs :
  NoDup l ->
  Forall (lookup_ok remote) l ->
  (forall a, a ∈ l -> fs !! local_version_file a = fs0 !! local_version_file a) ->
  (forall a v, fs !! mnt_file a v = fs0 !! mnt_file a v) ->
  res (exec remote (for_areas l n) fs) = Returned (n || any_change remote fs0 l)
  /\ final (exec remote (for_areas l n) fs)
     = foldl (fun acc a => apply_action a (plan remote fs0 a) acc) fs l.
Proof.
  revert n fs. induction l as [|a l IH]; intros n fs Hnd Hok Hrec Hmnt.
  { cbn. by rewrite orb_false_r. }
  apply NoDup_cons in Hnd as [Hna Hnd]. apply Forall_cons in Hok as [Ha Hok].
  rewrite exec_for_areas_cons. cbn zeta.
  destruct (loop_body_decide remote a n fs Ha) as (act & Hact & Hres & Hfin).
  assert (Hplan : plan remote fs0 a = act).
  { unfold plan. rewrite <- (decide_area_frame remote fs0 fs a), Hact; [done| |].
    - apply Hrec. constructor.
    - intros v. apply Hmnt. }
  rewrite Hres, Hfin. cbn [res final trace].
  destruct (IH (n || changed act) (apply_action a act fs) Hnd Hok) as [H1 H2].
  - intros a' Ha'. rewrite apply_action_other; [apply Hrec; by constructor|].
    intros H. apply local_version_file_inj in H. by subst.
  - intros a' v. rewrite apply_action_other; [apply Hmnt|].
    intros H. symmetry in H. by apply local_version_file_not_mnt in H.
  - split.
    + rewrite H1. unfold any_change. cbn [existsb]. rewrite Hplan.
      by rewrite orb_assoc.
    + rewrite H2. cbn [foldl]. by rewrite Hplan.
Qed.

Lemma reconcile_other remote fs l p :
  (forall a, a ∈ l -> p <> local_version_file a) ->
  reconcile remote fs l !! p = fs !! p.
Proof.
  unfold reconcile. intros Hp.
  assert (Hgen : forall acc,
             foldl (fun acc a => apply_action a (plan remote fs a) acc) acc l
               !! p = acc !! p).
  { induction l as [|a l IH]; intros acc; [done|]. cbn [foldl].
    rewrite IH by (intros a' Ha'; apply Hp; by constructor).
    apply apply_action_other, Hp. constructor. }
  apply Hgen.
Qed.

Lemma reconcile_record remote fs l a :
  a ∈ l ->
  reconcile remote fs l !! local_version_file a
  = record_after (plan remote fs a) (fs !! local_version_file a).
Proof.
  unfold reconcile.
  assert (Hgen : forall acc,
             (acc !! local_version_file a = fs !! local_version_file a
              \/ acc !! local_version_file a
                 = record_after (plan remote fs a) (fs !! local_version_file a)) ->
             (a ∈ l \/ acc !! local_version_file a
                 = record_after (plan remote fs a) (fs !! local_version_file a)) ->
             foldl (fun acc a => apply_action a (plan remote fs a) acc) acc l
               !! local_version_file a
             = record_after (plan remote fs a) (fs !! local_version_file a)).
  { induction l as [|a0 l IH]; intros acc Hacc Hin.
    - destruct Hin as [Hin|Hin]; [by apply elem_of_nil in Hin|done].
    - cbn [foldl]. destruct (decide (a0 = a)) as [->|Hne].
      + apply IH.
        * right. rewrite apply_action_record.
          destruct Hacc as [-> | ->]; [done|]. by destruct (plan remote fs a).
        * right. rewrite apply_action_record.
          destruct Hacc as [-> | ->]; [done|]. by destruct (plan remote fs a).
      + assert (Hp : local_version_file a <> local_version_file a0).
        { intros H. apply local_version_file_inj in H. by subst. }
        apply IH.
        * by rewrite apply_action_other.
        * rewrite apply_action_other by done.
          destruct Hin as [Hin|Hin]; [|by right].
          apply elem_of_cons in Hin as [->|Hin]; [done|by left]. }
  intros Hin. apply Hgen; [by left|by left].
Qed.

(** ** Crash states and the planned actions *)

Lemma loop_body_record_during remote area n fs :
  lookup_ok remote area ->
  Forall (fun st => record_during (plan remote fs area)
                      (fs !! local_version_file area)
                      (post st !! local_version_file area))
    (trace (exec remote (loop_body area n) fs)).
Proof.
  intros (r & Hget & Herr). unfold plan, decide_area. rewrite Hget, Herr.
  cbn zeta.
  destruct (loop_body_view remote area n fs)
    as [Hg|r' Hg He|r' c Hg He Hv' Hl'|r' Hg He Hv' Hl'|r' c Hg He Hv' Hm' Hl'
       |r' Hg He Hv' Hm' Hl'|r' Hg He Hv' Hm' Hl'|r' Hg He Hv' Hm' Hl'];
    rewrite Hget in Hg; simplify_eq; cbn [trace]; try congruence.
  1,2: rewrite Hv', Hl'; rewrite decide_True by done.
  3,4: rewrite decide_False by done; rewrite Hm', Hl'; cbn [bool_decide].
  5: rewrite decide_False by done; rewrite bool_decide_eq_true_2 by done;
     rewrite decide_True by congruence.
  6: rewrite decide_False by done; rewrite bool_decide_eq_true_2 by done;
     rewrite decide_False by (intros H; apply H; congruence).
  all: cbn [default]; apply Forall_app; split;
    [eapply Forall_impl; [apply lookup_trace_post|]; intros st ->; by left|];
    repeat first [apply Forall_nil_2 | apply Forall_cons_2];
    cbn [post]; unfold record_during; cbn [record_after];
    rewrite ?lookup_delete_eq, ?lookup_insert_eq; eauto.
Qed.

Lemma for_areas_crash_states remote fs0 l n fs s a :
  NoDup l ->
  Forall (lookup_ok remote) l ->
  (forall a, a ∈ l -> fs !! local_version_file a = fs0 !! local_version_file a) ->
  (forall a v, fs !! mnt_file a v = fs0 !! mnt_file a v) ->
  a ∈ l ->
  s ∈ post <$> trace (exec remote (for_areas l n) fs) ->
  record_during (plan remote fs0 a) (fs0 !! local_version_file a)
    (s !! local_version_file a).
Proof.
  revert n fs. induction l as [|a0 l IH]; intros n fs Hnd Hok Hrec Hmnt Ha Hs.
  { by apply elem_of_nil in Ha. }
  apply NoDup_cons in Hnd as [Hna Hnd]. apply Forall_cons in Hok as [Ha0 Hok].
  rewrite exec_for_areas_cons in Hs. cbn zeta in Hs.
  destruct (loop_body_decide remote a0 n fs Ha0) as (act & Hact & Hres & Hfin).
  assert (Hplan : plan remote fs0 a0 = plan remote fs a0).
  { unfold plan. f_equal. symmetry. apply decide_area_frame; [|apply Hmnt].
    apply Hrec. constructor. }
  assert (Hact' : plan remote fs a0 = act) by (unfold plan; by rewrite Hact).
  rewrite Hres in Hs. cbn [trace] in Hs.
  rewrite fmap_app, elem_of_app in Hs.
  assert (Hfs1 : forall a', a' ∈ l ->
            apply_action a0 act fs !! local_version_file a'
            = fs0 !! local_version_file a').
  { intros a' Ha'. rewrite apply_action_other; [apply Hrec; by constructor|].
    intros H. apply local_version_file_inj in H. by subst. }
  assert (Hmnt1 : forall a' v,
            apply_action a0 act fs !! mnt_file a' v = fs0 !! mnt_file a' v).
  { intros a' v. rewrite apply_action_other; [apply Hmnt|].
    intros H. symmetry in H. by apply local_version_file_not_mnt in H. }
  destruct (decide (a = a0)) as [->|Hne].
  - rewrite <- (Hrec a0) by constructor. rewrite Hplan.
    destruct Hs as [Hs|Hs].
    + apply list_elem_of_fmap in Hs as (st & -> & Hst).
      pose proof (loop_body_record_during remote a0 n fs Ha0) as Hd.
      by eapply Forall_forall in Hd.
    + right. left. rewrite Hact', <- apply_action_record. rewrite Hfin in Hs.
      apply list_elem_of_fmap in Hs as (st & -> & Hst).
      pose proof (for_areas_frame remote l (n || changed act)
                    (apply_action a0 act fs) (local_version_file a0)) as [_ Hf].
      { intros a' Ha' H. apply local_version_file_inj in H. by subst. }
      by eapply Forall_forall in Hf.
  - assert (Hin : a ∈ l) by (apply elem_of_cons in Ha as [?|?]; done).
    destruct Hs as [Hs|Hs].
    + left. rewrite <- (Hrec a) by done.
      apply list_elem_of_fmap in Hs as (st & -> & Hst).
      pose proof (loop_body_frame remote a0 n fs (local_version_file a)) as [_ Hf].
      { intros H. by apply local_version_file_inj in H. }
      by eapply Forall_forall in Hf.
    + rewrite Hfin in Hs. by eapply (IH _ _ Hnd Hok Hfs1 Hmnt1 Hin).
Qed.

(** Planning again on a state the action was caught in leads to the same
    record. *)
Lemma plan_again remote fs s area :
  (forall v, s !! mnt_file area v = fs !! mnt_file area v) ->
  record_during (plan remote fs area) (fs !! local_version_file area)
    (s !! local_version_file area) ->
  record_after (plan remote s area) (s !! local_version_file area)
  = record_after (plan remote fs area) (fs !! local_version_file area).
Proof.
  intros Hm. unfold plan, decide_area.
  destruct (remote (version_url area)) as [|r]; simpl.
  { by intros [?|[?|(v & ? & ?)]]. }
  destruct (is_error r); simpl.
  { by intros [?|[?|(v & ? & ?)]]. }
  cbn zeta. rewrite Hm.
  destruct (decide (Py.strip (text r) = "")) as [Hv|Hv].
  { destruct (fs !! local_version_file area) as [c|];
      destruct (s !! local_version_file area) as [c'|]; simpl;
      intros [?|[?|(v & ? & ?)]]; simplify_eq; done. }
  destruct (bool_decide (is_Some (fs !! mnt_file area (Py.strip (text r))))).
  2:{ destruct (fs !! local_version_file area) as [c|];
      destruct (s !! local_version_file area) as [c'|]; simpl;
      intros [?|[?|(v & ? & ?)]]; simplify_eq; done. }
  destruct (fs !! local_version_file area) as [c|];
    destruct (s !! local_version_file area) as [c'|]; cbn [fmap option_fmap option_map];
    repeat case_decide; simpl in *;
    intros [?|[?|(v & ? & ?)]]; simpl in *; simplify_eq; try done;
    try congruence.
Qed.

(** ** Further facts about strings *)

Lemma lstrip_id (s : string) :
  Py.starts_space s = false -> Py.lstrip s = s.
Proof. destruct s as [|c s]; simpl; [done|]. by intros ->. Qed.

Lemma rstrip_idem (s : string) : Py.rstrip (Py.rstrip s) = Py.rstrip s.
Proof.
  induction s as [|c s IH]; [done|]. simpl.
  destruct (Py.rstrip s) as [|d r] eqn:Hr.
  - destruct (Py.isspace c) eqn:Hc; [done|]. simpl. by rewrite Hc.
  - simpl in *. by rewrite IH.
Qed.

Lemma strip_idem (s : string) : Py.strip (Py.strip s) = Py.strip s.
Proof.
  unfold Py.strip at 1.
  rewrite lstrip_id by apply PyFacts.starts_space_strip.
  unfold Py.strip. apply rstrip_idem.
Qed.

(** ** Further facts about one iteration *)




(** Every write of an iteration puts the stripped, non-empty remote version
    into the record of the area. *)
Lemma loop_body_write_event remote area n fs p v :
  EvWrite p v ∈ events (exec remote (loop_body area n) fs) ->
  p = local_version_file area
  /\ v <> ""
  /\ exists r, remote (version_url area) = GetReturns r
               /\ v = Py.strip (text r).
Proof.
  unfold events.
  assert (Hpre : forall r, EvWrite p v ∈ ev <$> lookup_trace area fs r -> False).
  { intros r H. eapply Forall_forall in H; [|apply lookup_trace_events]. done. }
  destruct (loop_body_view remote area n fs); cbn [res final trace];
    rewrite ?fmap_app, ?elem_of_app; cbn [fmap list_fmap ev post];
    rewrite ?elem_of_cons, ?elem_of_nil; intros Hs;
    repeat match goal with
      | H : _ \/ _ |- _ => destruct H as [H|H]
      | H : _ ∈ ev <$> lookup_trace _ _ _ |- _ => destruct (Hpre _ H)
      | H : False |- _ => destruct H
      end; try discriminate.
  injection Hs as -> ->. eauto.
Qed.

Lemma for_areas_write_event remote l n fs p v :
  EvWrite p v ∈ events (exec remote (for_areas l n) fs) ->
  exists a r, a ∈ l /\ p = local_version_file a /\ v <> ""
              /\ remote (version_url a) = GetReturns r
              /\ v = Py.strip (text r).
Proof.
  revert n fs. induction l as [|a l IH]; intros n fs.
  { cbn. by intros ?%elem_of_nil. }
  rewrite exec_for_areas_cons. cbn zeta.
  pose proof (loop_body_write_event remote a n fs p v) as Ha.
  assert (Hhere : EvWrite p v ∈ events (exec remote (loop_body a n) fs) ->
                  exists a' r, a' ∈ a :: l /\ p = local_version_file a'
                               /\ v <> ""
                               /\ remote (version_url a') = GetReturns r
                               /\ v = Py.strip (text r)).
  { intros H. destruct (Ha H) as (-> & Hv & r & Hget & ->).
    exists a, r. split; [constructor|done]. }
  destruct (res (exec remote (loop_body a n) fs)) as [n1|e]; [|done].
  unfold events in *. cbn [trace]. rewrite fmap_app, elem_of_app.
  intros [H|H]; [by apply Hhere|].
  destruct (IH _ _ H) as (a' & r & Ha' & ?). exists a', r.
  split; [by constructor|done].
Qed.

(** The remote version is non-empty and mounted and the record does not read
    back as it. *)
Lemma loop_body_adopt remote area n fs r :
  remote (version_url area) = GetReturns r ->
  is_error r = false ->
  Py.strip (text r) <> "" ->
  is_Some (fs !! mnt_file area (Py.strip (text r))) ->
  Py.universal_newlines <$> fs !! local_version_file area
  <> Some (Py.strip (text r)) ->
  res (exec remote (loop_body area n) fs) = Returned true
  /\ final (exec remote (loop_body area n) fs)
     = <[local_version_file area := Py.strip (text r)]> fs
  /\ EvWrite (local_version_file area) (Py.strip (text r))
       ∈ events (exec remote (loop_body area n) fs).
Proof.
  intros Hget Herr Hv Hmnt Hdiff. unfold events.
  destruct (loop_body_view remote area n fs)
    as [Hg|r' Hg He|r' c Hg He Hv' Hl'|r' Hg He Hv' Hl'|r' c Hg He Hv' Hm' Hl'
       |r' Hg He Hv' Hm' Hl'|r' Hg He Hv' Hm' Hl'|r' Hg He Hv' Hm' Hl'];
    rewrite Hget in Hg; simplify_eq; cbn [res final trace];
    try congruence; try (rewrite Hm' in Hmnt; by destruct Hmnt).
  split; [done|]. split; [done|]. rewrite fmap_app. apply elem_of_app.
  right. simpl. repeat constructor.
Qed.

(** The remote version is non-empty and mounted and the record reads back as
    it. *)
Lemma loop_body_same remote area n fs r :
  remote (version_url area) = GetReturns r ->
  is_error r = false ->
  Py.strip (text r) <> "" ->
  is_Some (fs !! mnt_file area (Py.strip (text r))) ->
  Py.universal_newlines <$> fs !! local_version_file area
  = Some (Py.strip (text r)) ->
  res (exec remote (loop_body area n) fs) = Returned n
  /\ final (exec remote (loop_body area n) fs) = fs
  /\ forall x, x ∈ events (exec remote (loop_body area n) fs) ->
               store_change x = false.
Proof.
  intros Hget Herr Hv Hmnt Hsame. unfold events.
  assert (Hpre : forall (x : event),
             x ∈ ev <$> lookup_trace area fs r -> store_change x = false).
  { intros x Hx. by eapply Forall_forall in Hx; [|apply lookup_trace_events]. }
  destruct (loop_body_view remote area n fs)
    as [Hg|r' Hg He|r' c Hg He Hv' Hl'|r' Hg He Hv' Hl'|r' c Hg He Hv' Hm' Hl'
       |r' Hg He Hv' Hm' Hl'|r' Hg He Hv' Hm' Hl'|r' Hg He Hv' Hm' Hl'];
    rewrite Hget in Hg; simplify_eq; cbn [res final trace];
    try congruence; try (rewrite Hm' in Hmnt; by destruct Hmnt).
  split; [done|]. split; [done|]. rewrite fmap_app.
  intros x [Hx|Hx]%elem_of_app; [by apply Hpre|].
  cbn [fmap list_fmap ev] in Hx. rewrite !elem_of_cons, elem_of_nil in Hx.
  destruct Hx as [->|[]]; done.
Qed.

(** Two servers that plan the same actions lead to the same store. *)
Lemma reconcile_ext remote remote' fs l :
  (forall a, a ∈ l -> plan remote fs a = plan remote' fs a) ->
  reconcile remote fs l = reconcile remote' fs l
  /\ any_change remote fs l = any_change remote' fs l.
Proof.
  unfold reconcile, any_change. intros Hp.
  assert (Hgen : forall acc,
    foldl (fun acc a => apply_action a (plan remote fs a) acc) acc l
    = foldl (fun acc a => apply_action a (plan remote' fs a) acc) acc l).
  { induction l as [|a l IH]; intros acc; [done|]. cbn [foldl].
    rewrite (Hp a) by constructor.
    apply IH. intros a' Ha'. apply Hp. by constructor. }
  split; [apply Hgen|].
  clear Hgen. induction l as [|a l IH]; [done|]. cbn [existsb].
  rewrite (Hp a) by constructor. f_equal.
  apply IH. intros a' Ha'. apply Hp. by constructor.
Qed.

Lemma reconcile_perm remote fs l l' :
  l ≡ₚ l' ->
  reconcile remote fs l = reconcile remote fs l'
  /\ any_change remote fs l = any_change remote fs l'.
Proof.
  intros Hperm. split.
  - apply map_eq. intros p.
    destruct (decide (p ∈ local_version_file <$> l)) as [Hin|Hnin].
    + apply list_elem_of_fmap in Hin as (a & -> & Ha).
      rewrite !reconcile_record; [done| by rewrite <- Hperm | done].
    + rewrite !reconcile_other; [done| |].
      * intros a Ha ->. apply Hnin. apply list_elem_of_fmap.
        exists a. split; [done|]. by rewrite Hperm.
      * intros a Ha ->. apply Hnin. apply list_elem_of_fmap. eauto.
  - unfold any_change. apply eq_true_iff_eq.
    rewrite !existsb_exists. split; intros (a & Ha & Hc); exists a;
      (split; [|done]); apply list_elem_of_In; apply list_elem_of_In in Ha.
    + by rewrite <- Hperm.
    + by rewrite Hperm.
Qed.

(** The run with every lookup succeeding, as a function of the initial
    state. *)
Lemma deploy_tileset_as_function remote fs :
  Forall (lookup_ok remote) areas ->
  res (exec remote deploy_tileset fs) = Returned (any_change remote fs areas)
  /\ final (exec remote deploy_tileset fs) = reconcile remote fs areas.
Proof.
  intros Hok.
  by apply (for_areas_reconcile remote fs areas false fs areas_NoDup Hok).
Qed.

(** ** X1: the run as a function of the initial state *)

(** X1.  When every lookup succeeds, the run returns, the file system it
    leaves is the initial one with every area's planned action applied
    (keep, delete the record, or write the remote version), each planned on
    the initial file system, and the returned flag tells whether some
    planned action is not a keep. *)
Theorem deploy_tileset_reconciles remote fs :
  Forall (lookup_ok remote) areas ->
  res (exec remote deploy_tileset fs) = Returned (any_change remote fs areas)
  /\ final (exec remote deploy_tileset fs) = reconcile remote fs areas.
Proof.
  apply deploy_tileset_as_function.
Qed.

(** The hypothesis holds for a server that answers both lookups. *)
Lemma deploy_tileset_reconciles_witness :
  res (exec Scenario.planet_v7 deploy_tileset Scenario.planet_ready)
  = Returned (any_change Scenario.planet_v7 Scenario.planet_ready areas).
Proof.
  refine (proj1 (deploy_tileset_reconciles Scenario.planet_v7
                   Scenario.planet_ready _)).
  repeat constructor; eexists; split; reflexivity.
Defined.

(** ** X2: the order of the areas *)

(** X2.  When the run returns, going through the areas in any other order
    returns the same flag and leaves the same file system. *)
Theorem area_order_irrelevant remote fs l' b :
  areas ≡ₚ l' ->
  res (exec remote deploy_tileset fs) = Returned b ->
  res (exec remote (for_areas l' false) fs) = Returned b
  /\ final (exec remote (for_areas l' false) fs)
     = final (exec remote deploy_tileset fs).
Proof.
  intros Hperm Hres.
  pose proof (for_areas_returned remote areas false fs b Hres) as Hok.
  destruct (for_areas_reconcile remote fs areas false fs areas_NoDup Hok)
    as [H1 H2]; [done|done|].
  assert (Hnd : NoDup l') by (rewrite <- Hperm; apply areas_NoDup).
  assert (Hok' : Forall (lookup_ok remote) l') by by rewrite <- Hperm.
  destruct (for_areas_reconcile remote fs l' false fs Hnd Hok')
    as [H1' H2']; [done|done|].
  destruct (reconcile_perm remote fs areas l' Hperm) as [Hr Hc].
  unfold deploy_tileset in *. split.
  - rewrite H1', <- Hc. congruence.
  - rewrite H2', H2. symmetry. exact Hr.
Qed.

(** The hypotheses hold for monaco before planet. *)
Lemma area_order_irrelevant_witness :
  res (exec Scenario.planet_v7 (for_areas ["monaco"; "planet"] false)
         Scenario.planet_ready) = Returned true.
Proof.
  refine (proj1 (area_order_irrelevant Scenario.planet_v7
                   Scenario.planet_ready ["monaco"; "planet"] true _ _)).
  - apply perm_swap.
  - by vm_compute.
Defined.

(** ** X3: running again after a crash *)

(** X3.  When every lookup succeeds, a complete run started on the file
    system left by a crash at any point of a run returns and leaves the
    same file system as the run left alone. *)
Theorem rerun_after_crash remote fs s :
  Forall (lookup_ok remote) areas ->
  s ∈ crash_states fs (exec remote deploy_tileset fs) ->
  (exists b, res (exec remote deploy_tileset s) = Returned b)
  /\ final (exec remote deploy_tileset s)
     = final (exec remote deploy_tileset fs).
Proof.
  intros Hok Hs.
  destruct (for_areas_reconcile remote s areas false s areas_NoDup Hok)
    as [H1 H2]; [done|done|].
  destruct (for_areas_reconcile remote fs areas false fs areas_NoDup Hok)
    as [H1' H2']; [done|done|].
  unfold deploy_tileset in *. split; [eauto|].
  rewrite H2, H2'. unfold crash_states in Hs.
  apply elem_of_cons in Hs as [->|Hs]; [done|].
  fold (reconcile remote s areas). fold (reconcile remote fs areas).
  assert (Hmnt : forall a v, s !! mnt_file a v = fs !! mnt_file a v).
  { intros a v. apply list_elem_of_fmap in Hs as (st & -> & Hst).
    pose proof (for_areas_frame remote areas false fs (mnt_file a v)) as [_ Hf].
    { intros a' _ H. symmetry in H. by apply local_version_file_not_mnt in H. }
    by eapply Forall_forall in Hf. }
  apply map_eq. intros p.
  destruct (decide (p ∈ local_version_file <$> areas)) as [Hin|Hnin].
  - apply list_elem_of_fmap in Hin as (a & -> & Ha).
    rewrite !reconcile_record by done. apply plan_again; [apply Hmnt|].
    by apply (for_areas_crash_states remote fs areas false fs s a
                areas_NoDup Hok).
  - assert (Hp : forall a, a ∈ areas -> p <> local_version_file a).
    { intros a Ha ->. apply Hnin. apply list_elem_of_fmap. eauto. }
    rewrite !reconcile_other by done.
    apply list_elem_of_fmap in Hs as (st & -> & Hst).
    pose proof (for_areas_frame remote areas false fs p Hp) as [_ Hf].
    by eapply Forall_forall in Hf.
Qed.

(** The hypotheses hold for the crash that leaves the record of planet
    empty. *)
Lemma rerun_after_crash_witness :
  final (exec Scenario.planet_v4 deploy_tileset Example.planet_truncated)
  = final (exec Scenario.planet_v4 deploy_tileset Scenario.planet_v4_mounted).
Proof.
  refine (proj2 (rerun_after_crash Scenario.planet_v4
                   Scenario.planet_v4_mounted Example.planet_truncated _ _)).
  - repeat constructor; eexists; split; reflexivity.
  - apply (list_elem_of_lookup_2 _ 6). reflexivity.
Defined.

(** ** X4: records left by a run *)

(** X4.  When every lookup succeeds, every record the run leaves is backed:
    the remote version of its area is non-empty, the marker file of that
    version exists, and the record holds that version or reads back as
    it. *)
Theorem kept_record_is_backed remote fs a c :
  Forall (lookup_ok remote) areas ->
  a ∈ areas ->
  final (exec remote deploy_tileset fs) !! local_version_file a = Some c ->
  exists r,
    remote (version_url a) = GetReturns r
    /\ Py.strip (text r) <> ""
    /\ is_Some (final (exec remote deploy_tileset fs)
                  !! mnt_file a (Py.strip (text r)))
    /\ (c = Py.strip (text r) \/ Py.universal_newlines c = Py.strip (text r)).
Proof.
  intros Hok Ha.
  destruct (deploy_tileset_as_function remote fs Hok) as [_ ->].
  rewrite reconcile_record by done.
  eapply Forall_forall in Hok; [|exact Ha]. destruct Hok as (r & Hget & Herr).
  unfold plan, decide_area. rewrite Hget, Herr. cbn zeta. intros Hc.
  exists r. split; [done|].
  rewrite reconcile_other
    by (intros a' _ H; symmetry in H; by apply local_version_file_not_mnt in H).
  destruct (decide (Py.strip (text r) = "")) as [Hv|Hv].
  { destruct (fs !! local_version_file a); simpl in Hc; done. }
  destruct (bool_decide (is_Some (fs !! mnt_file a (Py.strip (text r)))))
    eqn:Hm.
  2:{ destruct (fs !! local_version_file a); simpl in Hc; done. }
  apply bool_decide_eq_true_1 in Hm. split; [done|]. split; [done|].
  case_decide as Hd; simpl in Hc.
  - left. congruence.
  - right. rewrite Hc in Hd. simpl in Hd. congruence.
Qed.

(** The hypotheses hold for planet after "v7" has been adopted. *)
Lemma kept_record_is_backed_witness :
  exists r,
    Scenario.planet_v7 (version_url "planet") = GetReturns r
    /\ Py.strip (text r) <> ""
    /\ is_Some (final (exec Scenario.planet_v7 deploy_tileset
                         Scenario.planet_ready)
                  !! mnt_file "planet" (Py.strip (text r)))
    /\ ("v7" = Py.strip (text r)
        \/ Py.universal_newlines "v7" = Py.strip (text r)).
Proof.
  refine (kept_record_is_backed Scenario.planet_v7 Scenario.planet_ready
            "planet" "v7" _ _ _).
  - repeat constructor; eexists; split; reflexivity.
  - constructor.
  - by vm_compute.
Defined.

(** ** X5: how a run ends *)


(** ** X6: files the run leaves alone *)

(** X6.  At every point of a run, every file other than the version records
    of the areas is as it was before the run; in particular no marker file
    is created, changed or removed. *)
Theorem other_files_untouched remote fs p s :
  (forall a, a ∈ areas -> p <> local_version_file a) ->
  s ∈ crash_states fs (exec remote deploy_tileset fs) ->
  s !! p = fs !! p.
Proof.
  intros Hp Hs. unfold crash_states in Hs.
  apply elem_of_cons in Hs as [->|Hs]; [done|].
  apply list_elem_of_fmap in Hs as (st & -> & Hst).
  pose proof (for_areas_frame remote areas false fs p Hp) as [_ Hf].
  by eapply Forall_forall in Hf.
Qed.

(** The hypotheses hold for the marker file of planet and the file system
    left by the run that adopts "v7". *)
Lemma other_files_untouched_witness :
  final (exec Scenario.planet_v7 deploy_tileset Scenario.planet_ready)
    !! mnt_file "planet" "v7"
  = Scenario.planet_ready !! mnt_file "planet" "v7".
Proof.
  refine (other_files_untouched Scenario.planet_v7 Scenario.planet_ready
            (mnt_file "planet" "v7") _ _ _).
  - intros a _ H. symmetry in H. by apply local_version_file_not_mnt in H.
  - apply (list_elem_of_lookup_2 _ 6). reflexivity.
Defined.

(** ** X7: what gets written *)

(** X7.  Every text a run writes goes into the version record of one of the
    areas and is the stripped body of the server's answer for that area: it
    is non-empty and has no surrounding whitespace. *)
Theorem written_version_is_stripped remote fs p v :
  EvWrite p v ∈ events (exec remote deploy_tileset fs) ->
  v <> "" /\ Py.strip v = v
  /\ exists a r, a ∈ areas /\ p = local_version_file a
                 /\ remote (version_url a) = GetReturns r
                 /\ v = Py.strip (text r).
Proof.
  intros Hw.
  destruct (for_areas_write_event remote areas false fs p v Hw)
    as (a & r & Ha & Hp & Hv & Hget & Heq).
  split; [done|]. split; [|by eauto 10].
  rewrite Heq. apply strip_idem.
Qed.

(** The hypothesis holds for the write of "v7" when the server's answer is
    wrapped in whitespace. *)
Lemma written_version_is_stripped_witness :
  "v7" <> "" /\ Py.strip "v7" = "v7"
  /\ exists a r, a ∈ areas /\ local_version_file "planet" = local_version_file a
                 /\ Example.planet_v7_padded (version_url a) = GetReturns r
                 /\ "v7" = Py.strip (text r).
Proof.
  refine (written_version_is_stripped Example.planet_v7_padded
            Scenario.planet_ready (local_version_file "planet") "v7" _).
  apply (list_elem_of_lookup_2 _ 5). by vm_compute.
Defined.

(** ** X8: adoption *)

(** X8.  For every area whose iteration is reached, whose remote version is
    non-empty and has its artifact available, and whose record is absent or
    does not read back as the remote version, the run writes the remote
    version into the record, which holds it when the run ends, and a run
    that returns, returns [true]. *)
Theorem new_version_adopted remote fs pre a post r :
  areas = pre ++ a :: post ->
  Forall (lookup_ok remote) pre ->
  remote (version_url a) = GetReturns r ->
  is_error r = false ->
  Py.strip (text r) <> "" ->
  is_Some (fs !! mnt_file a (Py.strip (text r))) ->
  Py.universal_newlines <$> fs !! local_version_file a
  <> Some (Py.strip (text r)) ->
  final (exec remote deploy_tileset fs) !! local_version_file a
  = Some (Py.strip (text r))
  /\ EvWrite (local_version_file a) (Py.strip (text r))
       ∈ events (exec remote deploy_tileset fs)
  /\ forall b, res (exec remote deploy_tileset fs) = Returned b -> b = true.
Proof.
  intros Heq Hpre Hget Herr Hv Hmnt Hdiff.
  destruct (deploy_tileset_iteration remote fs pre a post Heq Hpre)
    as (n1 & _ & Hl1 & Hm & Hfin & Hin & _ & Hres).
  destruct (loop_body_adopt remote a n1
              (final (exec remote (for_areas pre false) fs)) r Hget Herr Hv)
    as (Hr & Hf & Hw); [by rewrite Hm|by rewrite Hl1|].
  split; [by rewrite Hfin, Hf, lookup_insert_eq|]. split; [by apply Hin|].
  intros b Hb. destruct (Hres b Hb) as (b' & Hb' & Himp).
  apply Himp. congruence.
Qed.

(** The hypotheses hold for planet without a record and "v7" announced and
    mounted. *)
Lemma new_version_adopted_witness :
  final (exec Scenario.planet_v7 deploy_tileset Scenario.planet_ready)
    !! local_version_file "planet" = Some "v7".
Proof.
  refine (proj1 (new_version_adopted Scenario.planet_v7 Scenario.planet_ready
                   [] "planet" ["monaco"]
                   {| status_code := 200; text := "v7" |} _ _ _ _ _ _ _)).
  - reflexivity.
  - constructor.
  - reflexivity.
  - reflexivity.
  - by vm_compute.
  - exists Scenario.marker. by vm_compute.
  - by vm_compute.
Defined.

(** ** X9: the steady state *)

(** X9.  For every area whose iteration is reached, whose remote version is
    non-empty and has its artifact available, and whose record reads back as
    the remote version, the run makes no operation on the record of the area
    and leaves it as it is. *)
Theorem current_version_kept remote fs pre a post r :
  areas = pre ++ a :: post ->
  Forall (lookup_ok remote) pre ->
  remote (version_url a) = GetReturns r ->
  is_error r = false ->
  Py.strip (text r) <> "" ->
  is_Some (fs !! mnt_file a (Py.strip (text r))) ->
  Py.universal_newlines <$> fs !! local_version_file a
  = Some (Py.strip (text r)) ->
  final (exec remote deploy_tileset fs) !! local_version_file a
  = fs !! local_version_file a
  /\ forall x, x ∈ events (exec remote deploy_tileset fs) ->
               ~ record_event a x.
Proof.
  intros Heq Hpre Hget Herr Hv Hmnt Hsame.
  destruct (deploy_tileset_iteration remote fs pre a post Heq Hpre)
    as (n1 & _ & Hl1 & Hm & Hfin & _ & Hrec & _).
  destruct (loop_body_same remote a n1
              (final (exec remote (for_areas pre false) fs)) r Hget Herr Hv)
    as (_ & Hf & Hno); [by rewrite Hm|by rewrite Hl1|].
  split; [by rewrite Hfin, Hf|].
  intros x Hx Hr. specialize (Hno x (Hrec x Hx Hr)).
  apply record_event_store_change in Hr. congruence.
Qed.

(** The hypotheses hold for planet at "v7", announced and mounted. *)
Lemma current_version_kept_witness :
  final (exec Scenario.planet_v7 deploy_tileset Example.planet_at_v7)
    !! local_version_file "planet"
  = Example.planet_at_v7 !! local_version_file "planet".
Proof.
  refine (proj1 (current_version_kept Scenario.planet_v7 Example.planet_at_v7
                   [] "planet" ["monaco"]
                   {| status_code := 200; text := "v7" |} _ _ _ _ _ _ _)).
  - reflexivity.
  - constructor.
  - reflexivity.
  - reflexivity.
  - by vm_compute.
  - exists Scenario.marker. by vm_compute.
  - by vm_compute.
Defined.

(** ** X10: whitespace around the remote version *)

(** X10.  Two servers whose answers are accepted for every area and have the
    same stripped bodies lead to the same returned flag and the same file
    system: whitespace around the published version makes no difference. *)
Theorem remote_whitespace_irrelevant remote remote' fs :
  (forall a, a ∈ areas ->
     exists r r',
       remote (version_url a) = GetReturns r
       /\ remote' (version_url a) = GetReturns r'
       /\ is_error r = false /\ is_error r' = false
       /\ Py.strip (text r) = Py.strip (text r')) ->
  res (exec remote deploy_tileset fs) = res (exec remote' deploy_tileset fs)
  /\ final (exec remote deploy_tileset fs)
     = final (exec remote' deploy_tileset fs).
Proof.
  intros Hsame.
  assert (Hok : Forall (lookup_ok remote) areas).
  { apply Forall_forall. intros a Ha.
    destruct (Hsame a Ha) as (r & r' & ? & ? & ? & ? & ?). by exists r. }
  assert (Hok' : Forall (lookup_ok remote') areas).
  { apply Forall_forall. intros a Ha.
    destruct (Hsame a Ha) as (r & r' & ? & ? & ? & ? & ?). by exists r'. }
  destruct (deploy_tileset_as_function remote fs Hok) as [-> ->].
  destruct (deploy_tileset_as_function remote' fs Hok') as [-> ->].
  destruct (reconcile_ext remote remote' fs areas) as [-> ->]; [|done].
  intros a Ha. destruct (Hsame a Ha) as (r & r' & Hg & Hg' & He & He' & Hs).
  unfold plan, decide_area. by rewrite Hg, Hg', He, He', Hs.
Qed.

(** The hypothesis holds for the answers "v7" and nothing, bare and wrapped
    in whitespace. *)
Lemma remote_whitespace_irrelevant_witness :
  final (exec Scenario.planet_v7 deploy_tileset Scenario.planet_ready)
  = final (exec Example.planet_v7_padded deploy_tileset Scenario.planet_ready).
Proof.
  refine (proj2 (remote_whitespace_irrelevant Scenario.planet_v7
                   Example.planet_v7_padded Scenario.planet_ready _)).
  intros a Ha.
  apply elem_of_cons in Ha as [->|Ha];
    [|apply elem_of_cons in Ha as [->|Ha]; [|by apply elem_of_nil in Ha]];
    do 2 eexists; repeat split; reflexivity.
Defined.

(** * Properties of init-server.py *)

Module InitServerFacts.
Import InitServer.
Local Open Scope init_scope.

Lemma run_andthen {A B} (e : env) (m : script A) (f : A -> script B) :
  run e (andthen m f) =
  match run e m with
  | (Finished a, t) => ((run e (f a)).1, t ++ (run e (f a)).2)
  | (Failed c g, t) => (Failed c g, t)
  | (Exited, t) => (Exited, t)
  end.
Proof.
  induction m as [a|text k IH|path key k IH|p k IH|c g k IH|]; simpl.
  - by destruct (run e (f a)).
  - rewrite IH. by destruct (run e (k _)) as [[]].
  - rewrite IH. by destruct (run e (k _)) as [[]].
  - rewrite IH. by destruct (run e (k _)) as [[]].
  - destruct (call_raises e c g); [done|].
    rewrite IH. by destruct (run e k) as [[]].
  - done.
Qed.

(** What a run records is the beginning of what the same run records on a
    host where no call fails. *)
Lemma run_prefix {A} (e : env) (m : script A) :
  exists rest, (run (no_failure e) m).2 = (run e m).2 ++ rest.
Proof.
  induction m as [a|text k IH|path key k IH|p k IH|c g k IH|]; simpl.
  - by exists [].
  - destruct (IH (confirm_answer e text)) as [rest Hrest].
    destruct (run (no_failure e) (k _)), (run e (k _)); simpl in *.
    exists rest. by rewrite Hrest.
  - destruct (IH (dotenv_value e path key)) as [rest Hrest].
    destruct (run (no_failure e) (k _)), (run e (k _)); simpl in *.
    exists rest. by rewrite Hrest.
  - destruct (IH (file_exists e p)) as [rest Hrest].
    destruct (run (no_failure e) (k _)), (run e (k _)); simpl in *.
    exists rest. by rewrite Hrest.
  - destruct IH as [rest Hrest].
    destruct (run (no_failure e) k) as [o t] eqn:Hk; simpl in *.
    destruct (call_raises e c g).
    + by exists t.
    + destruct (run e k); simpl in *. exists rest. by rewrite Hrest.
  - by exists [].
Qed.

Lemma run_Forall {A} (P : entry -> Prop) (e : env) (m : script A) :
  Forall P (run (no_failure e) m).2 -> Forall P (run e m).2.
Proof.
  destruct (run_prefix e m) as [rest ->]. by intros [? _]%Forall_app.
Qed.

(** A call that is not the last event of a run has returned. *)
Lemma run_earlier_calls {A} (e : env) (m : script A) l1 ev l2 c f :
  (run e m).2 = l1 ++ ev :: l2 ->
  EvCall c f ∈ l1 ->
  call_raises e c f = false.
Proof.
  revert l1.
  induction m as [a|text k IH|path key k IH|p k IH|c' g k IH|];
    simpl; intros l1 Ht Hin.
  - by destruct l1.
  - destruct (run e (k _)) as [o t] eqn:Hk; simpl in *.
    destruct l1 as [|x l1]; [by apply elem_of_nil in Hin|].
    injection Ht as <- Ht.
    apply elem_of_cons in Hin as [?|Hin]; [done|].
    eapply (IH _ l1); [by rewrite Hk|done].
  - destruct (run e (k _)) as [o t] eqn:Hk; simpl in *.
    destruct l1 as [|x l1]; [by apply elem_of_nil in Hin|].
    injection Ht as <- Ht.
    apply elem_of_cons in Hin as [?|Hin]; [done|].
    eapply (IH _ l1); [by rewrite Hk|done].
  - destruct (run e (k _)) as [o t] eqn:Hk; simpl in *.
    destruct l1 as [|x l1]; [by apply elem_of_nil in Hin|].
    injection Ht as <- Ht.
    apply elem_of_cons in Hin as [?|Hin]; [done|].
    eapply (IH _ l1); [by rewrite Hk|done].
  - destruct (call_raises e c' g) eqn:Hr; simpl in *.
    + destruct l1 as [|x [|y l1]]; [by apply elem_of_nil in Hin|done|done].
    + destruct (run e k) as [o t] eqn:Hk; simpl in *.
      destruct l1 as [|x l1]; [by apply elem_of_nil in Hin|].
      injection Ht as <- Ht.
      apply elem_of_cons in Hin as [Heq|Hin]; [by simplify_eq|].
      by apply (IH l1).
  - destruct l1 as [|x [|y l1]]; [by apply elem_of_nil in Hin|done|done].
Qed.

(** A run that meets no failing call is the run on a host where no call
    fails. *)
Lemma run_no_failure {A} (e : env) (m : script A) :
  (forall c f, EvCall c f ∈ (run (no_failure e) m).2 ->
     call_raises e c f = false) ->
  run e m = run (no_failure e) m.
Proof.
  induction m as [a|text k IH|path key k IH|p k IH|c g k IH|];
    simpl; intros Hok; try done.
  - rewrite IH; [done|]. intros c f Hin. apply Hok.
    destruct (run (no_failure e) (k _)). by apply list_elem_of_further.
  - rewrite IH; [done|]. intros c f Hin. apply Hok.
    destruct (run (no_failure e) (k _)). by apply list_elem_of_further.
  - rewrite IH; [done|]. intros c f Hin. apply Hok.
    destruct (run (no_failure e) (k _)). by apply list_elem_of_further.
  - rewrite Hok.
    + rewrite IH; [done|]. intros c' f Hin. apply Hok.
      destruct (run (no_failure e) k). by apply list_elem_of_further.
    + destruct (run (no_failure e) k). apply list_elem_of_here.
Qed.

(** Evaluate a run on a host without failures, asking the operator and the
    local files where the events depend on them. *)
Ltac answers :=
  repeat (simpl;
    match goal with
    | H : confirm_answer ?e ?t = _ |- context [confirm_answer ?e ?t] =>
        rewrite H
    | H : file_exists ?e ?p = _ |- context [file_exists ?e ?p] =>
        rewrite H
    | |- context [confirm_answer ?e ?t] =>
        destruct (confirm_answer e t) eqn:?
    | |- context [file_exists ?e ?p] =>
        destruct (file_exists e p) eqn:?
    end); simpl.


Lemma full_run_selected cfg hostname user port tg hh ss rb e :
  Forall (fun ev => match ev with
                    | EvCall _ f => selected e tg hh ss rb (task_of f) = true
                    | _ => True
                    end)
    (run (no_failure e) (main cfg hostname user port tg hh ss rb false)).2.
Proof.
  unfold main, install, selected, chosen_tile_gen, chosen_http_host.
  destruct tg, hh, ss, rb; answers; repeat constructor.
Qed.


Lemma sorted_prefix {X} (R : X -> X -> Prop) l r :
  StronglySorted R (l ++ r) -> StronglySorted R l.
Proof.
  induction l as [|x l IH]; simpl; intros H; [constructor|].
  apply StronglySorted_inv in H as [H1 H2].
  constructor; [by apply IH|]. by apply Forall_app in H2 as [? _].
Qed.

Lemma sorted_later {X} (R : X -> X -> Prop) l1 x l2 :
  StronglySorted R (l1 ++ x :: l2) -> Forall (R x) l2.
Proof.
  induction l1 as [|y l1 IH]; simpl; intros H;
    apply StronglySorted_inv in H as [H1 H2]; [done|by apply IH].
Qed.

Lemma full_run_sorted cfg hostname user port tg hh ss rb e :
  StronglySorted in_task_order
    (run (no_failure e) (main cfg hostname user port tg hh ss rb false)).2.
Proof.
  unfold main, install.
  destruct tg, hh, ss, rb; answers; repeat constructor.
Qed.

Lemma only_last {X} (P : X -> Prop) (l1 l3 pre : list X) (x y : X) :
  l1 ++ y :: l3 = pre ++ [x] -> P y -> Forall (fun z => ~ P z) pre ->
  l3 = [] /\ y = x.
Proof.
  revert pre. induction l1 as [|a l1 IH]; intros [|p pre] Heq Hy Hpre;
    simpl in Heq.
  - by injection Heq as -> ->.
  - injection Heq as -> _. by apply Forall_cons in Hpre as [? _].
  - injection Heq as _ Heq. by destruct l1.
  - injection Heq as _ Heq. apply Forall_cons in Hpre as [_ Hpre].
    by apply (IH pre).
Qed.

Lemma last_split {X} (P : X -> Prop) (Q : X -> Prop) (L : list X) (d : X) :
  L <> [] -> Forall P (removelast L) -> Q (List.last L d) ->
  exists pre x, L = pre ++ [x] /\ Forall P pre /\ Q x.
Proof.
  intros HL HP HQ. exists (removelast L), (List.last L d).
  split; [by apply app_removelast_last|done].
Qed.

Lemma full_run_reboot_last cfg hostname user port tg hh ss rb dbg e :
  exists pre x,
    (run (no_failure e) (main cfg hostname user port tg hh ss rb dbg)).2
    = pre ++ [x] /\
    Forall (fun ev => ~ is_reboot ev = true) pre /\
    (is_reboot x = true -> rb = true /\ dbg = false).
Proof.
  unfold main, install.
  destruct dbg, tg, hh, ss, rb; answers;
    (apply (last_split _ _ _ EvExit);
     [discriminate | simpl; repeat constructor; discriminate
     | simpl; by intros ?]).
Qed.

Lemma full_run_connection cfg hostname user port tg hh ss rb dbg e :
  Forall (fun ev =>
            match ev with
            | EvCall c _ =>
                c = connect hostname user port
                      (dotenv_value e (CONFIG_DIR cfg +:+ "/.env")
                         "SSH_PASSWD")
            | _ => True
            end)
    (run (no_failure e) (main cfg hostname user port tg hh ss rb dbg)).2.
Proof.
  unfold main, install.
  destruct dbg, tg, hh, ss, rb; answers; repeat constructor.
Qed.

Lemma connect_fields hostname user port v :
  let c := connect hostname user port v in
  host c = hostname /\ InitServer.user c = user /\ InitServer.port c = port /\
  sudo_password c = connect_password c /\
  forall pw, connect_password c = Some pw <-> v = Some pw /\ pw <> "".
Proof.
  unfold connect, truthy. destruct v as [s|]; simpl.
  - destruct (String.eqb_spec s "") as [Hs|Hs]; simpl.
    + repeat split; try done. intros [Hv Hpw]. congruence.
    + repeat split; try done; [congruence|intros [Hv _]; congruence].
  - repeat split; try done. by intros [? _].
Qed.

Lemma append_last (a b s t : string) :
  a +:+ s = b +:+ t -> s <> "" -> t <> "" ->
  String.get (String.length s - 1) s = String.get (String.length t - 1) t.
Proof.
  intros Heq Hs Ht.
  assert (Hlen : String.length a + String.length s
                 = String.length b + String.length t).
  { apply (f_equal String.length) in Heq.
    by rewrite !PyFacts.length_app in Heq. }
  assert (0 < String.length s) by (destruct s; [done|simpl; lia]).
  assert (0 < String.length t) by (destruct t; [done|simpl; lia]).
  rewrite (String.append_correct2 a s (String.length s - 1)),
    (String.append_correct2 b t (String.length t - 1)).
  rewrite Heq. f_equal. lia.
Qed.

Lemma full_run_rclone cfg hostname user port tg hh ss rb dbg e :
  Forall (fun ev =>
            match ev with
            | EvCall _ (Put src dst perm cpd) =>
                src = slash (CONFIG_DIR cfg) "rclone.conf" ->
                file_exists e (slash (CONFIG_DIR cfg) "rclone.conf") = true /\
                dst = REMOTE_CONFIG cfg +:+ "/rclone.conf" /\
                perm = "600" /\ cpd = Some true
            | _ => True
            end)
    (run (no_failure e) (main cfg hostname user port tg hh ss rb dbg)).2.
Proof.
  unfold main, install.
  destruct dbg, tg, hh, ss, rb; answers;
    repeat first [apply Forall_nil_2 | apply Forall_cons_2]; try done;
    unfold slash; intros Heq; apply append_last in Heq; done.
Qed.


(** X11. No call reaches the remote host without the operator's consent:
    outside debug mode the operator has agreed to run the script on the
    host, and a task was named by a flag or accepted at its prompt. *)
Theorem remote_call_needs_consent cfg hostname user port tg hh ss rb dbg e
    c f :
  EvCall c f ∈ (run e (main cfg hostname user port tg hh ss rb dbg)).2 ->
  dbg = true \/
  (confirm_answer e (run_prompt hostname) = true /\
   (tg = true \/ hh = true \/
    confirm_answer e tile_gen_prompt = true \/
    confirm_answer e http_host_prompt = true)).
Proof.
  intros Hin.
  assert (Hall : Forall (fun ev => ev <> EvCall c f)
           (run e (main cfg hostname user port tg hh ss rb dbg)).2 -> False).
  { intros Hall. by eapply Forall_forall in Hall. }
  destruct dbg; [by left|right].
  destruct (confirm_answer e (run_prompt hostname)) eqn:Hrun.
  - split; [done|].
    destruct tg; [by left|]. destruct hh; [by right; left|].
    destruct (confirm_answer e tile_gen_prompt) eqn:Ht;
      [by right; right; left|].
    destruct (confirm_answer e http_host_prompt) eqn:Hh;
      [by right; right; right|].
    exfalso. apply Hall. unfold main. simpl. rewrite Hrun. simpl.
    rewrite Ht. simpl. rewrite Hh. simpl. by repeat constructor.
  - exfalso. apply Hall. unfold main. simpl. rewrite Hrun. simpl.
    by repeat constructor.
Qed.

Lemma remote_call_needs_consent_witness :
  EvCall Sample.conn Nginx
    ∈ (run Sample.willing
         (main Sample.cfg "example.org" None None false true true false
            false)).2 /\
  (false = true \/
   (confirm_answer Sample.willing (run_prompt "example.org") = true /\
    (false = true \/ true = true \/
     confirm_answer Sample.willing tile_gen_prompt = true \/
     confirm_answer Sample.willing http_host_prompt = true))).
Proof.
  assert (Hin : EvCall Sample.conn Nginx
    ∈ (run Sample.willing
         (main Sample.cfg "example.org" None None false true true false
            false)).2).
  { apply (list_elem_of_lookup_2 _ 2). by vm_compute. }
  split; [exact Hin|].
  exact (remote_call_needs_consent _ _ _ _ _ _ _ _ _ _ _ _ Hin).
Defined.

(** X12. In debug mode the script asks nothing and installs nothing: it
    reads the password, uploads tile-gen scripts with mode 755 to the
    tile-gen directory and exits.  The task flags, [--skip-shared] and
    [--reboot] have no effect, and [main] never returns normally. *)
Theorem debug_only_uploads cfg hostname user port tg hh ss rb e :
  let r := run e (main cfg hostname user port tg hh ss rb true) in
  (r.1 = Exited \/ exists c f, r.1 = Failed c f) /\
  Forall (fun ev =>
            match ev with
            | EvDotenv _ _ _ | EvExit => True
            | EvCall _ (Put src dst perm cpd) =>
                (exists file, file ∈ tile_gen_scripts /\
                   src = slash (slash (SCRIPTS_DIR cfg) "tile_gen") file) /\
                dst = TILE_GEN_BIN cfg /\ perm = "755" /\ cpd = None
            | _ => False
            end) r.2.
Proof.
  unfold main, install, tile_gen_scripts.
  destruct tg, hh;
  repeat (simpl;
    match goal with
    | |- context [call_raises ?e ?c ?f] => destruct (call_raises e c f)
    end); simpl;
    (split; [eauto|]);
    repeat first [apply Forall_nil_2 | apply Forall_cons_2]; try done;
    (split; [|done]); eexists; (split; [|reflexivity]);
    repeat first [apply list_elem_of_here | apply list_elem_of_further].
Qed.

(** X13. Nothing follows a reboot: a reboot call is the last event of the
    run, it happens only with [--reboot] and outside debug mode, and every
    call made before it has returned. *)
Theorem reboot_is_last cfg hostname user port tg hh ss rb dbg e c l1 l2 :
  (run e (main cfg hostname user port tg hh ss rb dbg)).2
  = l1 ++ EvCall c Reboot :: l2 ->
  l2 = [] /\ rb = true /\ dbg = false /\
  forall c' f, EvCall c' f ∈ l1 -> call_raises e c' f = false.
Proof.
  intros Ht.
  destruct (run_prefix e (main cfg hostname user port tg hh ss rb dbg))
    as [rest Hrest].
  destruct (full_run_reboot_last cfg hostname user port tg hh ss rb dbg e)
    as (pre & x & Hfull & Hpre & Hx).
  rewrite Hfull, Ht, <- app_assoc in Hrest. simpl in Hrest.
  symmetry in Hrest.
  apply (only_last (fun ev => is_reboot ev = true)) in Hrest
    as [Hnil <-]; [|done|done].
  apply app_eq_nil in Hnil as [-> _].
  destruct (Hx eq_refl) as [-> ->].
  repeat split. intros c' f Hin. by eapply run_earlier_calls.
Qed.

Lemma reboot_is_last_witness :
  (run Sample.willing
     (main Sample.cfg "example.org" None None false true true true false)).2
  = [EvConfirm (run_prompt "example.org") true;
     EvDotenv "/repo/config/.env" "SSH_PASSWD" (Some "secret");
     EvCall Sample.conn Nginx; EvCall Sample.conn Certbot;
     EvCall Sample.conn C1000k]
    ++ EvCall Sample.conn Reboot :: [] /\
  ([] = ([] : list entry) /\ true = true /\ false = false /\
   forall c' f,
     EvCall c' f ∈ [EvConfirm (run_prompt "example.org") true;
                    EvDotenv "/repo/config/.env" "SSH_PASSWD" (Some "secret");
                    EvCall Sample.conn Nginx; EvCall Sample.conn Certbot;
                    EvCall Sample.conn C1000k] ->
     call_raises Sample.willing c' f = false).
Proof.
  assert (Ht : (run Sample.willing
     (main Sample.cfg "example.org" None None false true true true false)).2
  = [EvConfirm (run_prompt "example.org") true;
     EvDotenv "/repo/config/.env" "SSH_PASSWD" (Some "secret");
     EvCall Sample.conn Nginx; EvCall Sample.conn Certbot;
     EvCall Sample.conn C1000k]
    ++ EvCall Sample.conn Reboot :: []) by (by vm_compute).
  split; [exact Ht|].
  exact (reboot_is_last _ _ _ _ _ _ _ _ _ _ _ _ _ Ht).
Defined.

(** X14. Outside debug mode a call is made only for a selected task: the
    shared preparation unless [--skip-shared] is given, the tile-gen and the
    http-host installation when chosen by flag or prompt, the reboot with
    [--reboot]. *)
Theorem task_runs_only_if_selected cfg hostname user port tg hh ss rb e c f :
  EvCall c f ∈ (run e (main cfg hostname user port tg hh ss rb false)).2 ->
  selected e tg hh ss rb (task_of f) = true.
Proof.
  intros Hin.
  pose proof (run_Forall _ e _
                (full_run_selected cfg hostname user port tg hh ss rb e))
    as Hall.
  by apply (proj1 (Forall_forall _ _) Hall) in Hin.
Qed.

Lemma task_runs_only_if_selected_witness :
  EvCall Sample.conn (AddUser "ofm" 2000)
    ∈ (run Sample.willing
         (main Sample.cfg "example.org" None None false true false false
            false)).2 /\
  selected Sample.willing false true false false
    (task_of (AddUser "ofm" 2000)) = true.
Proof.
  assert (Hin : EvCall Sample.conn (AddUser "ofm" 2000)
    ∈ (run Sample.willing
         (main Sample.cfg "example.org" None None false true false false
            false)).2).
  { apply (list_elem_of_lookup_2 _ 2). by vm_compute. }
  split; [exact Hin|].
  exact (task_runs_only_if_selected _ _ _ _ _ _ _ _ _ _ _ Hin).
Defined.

(** X15. Outside debug mode the tasks run in a fixed order: a call of the
    shared preparation is never made after a call of a task, a tile-gen call
    never after an http-host call, and nothing after the reboot. *)
Theorem tasks_in_order cfg hostname user port tg hh ss rb e l1 l2 c f c' f' :
  (run e (main cfg hostname user port tg hh ss rb false)).2
  = l1 ++ EvCall c f :: l2 ->
  EvCall c' f' ∈ l2 ->
  task_rank (task_of f) <= task_rank (task_of f').
Proof.
  intros Ht Hin.
  destruct (run_prefix e (main cfg hostname user port tg hh ss rb false))
    as [rest Hrest].
  pose proof (full_run_sorted cfg hostname user port tg hh ss rb e) as Hs.
  rewrite Hrest in Hs. apply sorted_prefix in Hs. rewrite Ht in Hs.
  apply sorted_later in Hs.
  by apply (proj1 (Forall_forall _ _) Hs) in Hin.
Qed.

Lemma tasks_in_order_witness :
  (run Sample.willing
     (main Sample.cfg "example.org" None None false true true true false)).2
  = [EvConfirm (run_prompt "example.org") true;
     EvDotenv "/repo/config/.env" "SSH_PASSWD" (Some "secret")]
    ++ EvCall Sample.conn Nginx
       :: [EvCall Sample.conn Certbot; EvCall Sample.conn C1000k;
           EvCall Sample.conn Reboot] /\
  EvCall Sample.conn Reboot
    ∈ [EvCall Sample.conn Certbot; EvCall Sample.conn C1000k;
       EvCall Sample.conn Reboot] /\
  task_rank (task_of Nginx) <= task_rank (task_of Reboot).
Proof.
  assert (Ht : (run Sample.willing
     (main Sample.cfg "example.org" None None false true true true false)).2
  = [EvConfirm (run_prompt "example.org") true;
     EvDotenv "/repo/config/.env" "SSH_PASSWD" (Some "secret")]
    ++ EvCall Sample.conn Nginx
       :: [EvCall Sample.conn Certbot; EvCall Sample.conn C1000k;
           EvCall Sample.conn Reboot]) by (by vm_compute).
  assert (Hin : EvCall Sample.conn Reboot
    ∈ [EvCall Sample.conn Certbot; EvCall Sample.conn C1000k;
       EvCall Sample.conn Reboot]).
  { apply (list_elem_of_lookup_2 _ 2). by vm_compute. }
  split; [exact Ht|]. split; [exact Hin|].
  exact (tasks_in_order _ _ _ _ _ _ _ _ _ _ _ _ _ _ _ Ht Hin).
Defined.

(** X16. Every call of a run uses one connection, to the host, user and
    port of the command line.  It carries a password exactly when the
    dotenv file gives a non-empty [SSH_PASSWD], and then the same password
    for logging in and for sudo; an empty value counts as none. *)
Theorem calls_share_connection cfg hostname user port tg hh ss rb dbg e c f :
  EvCall c f ∈ (run e (main cfg hostname user port tg hh ss rb dbg)).2 ->
  host c = hostname /\ InitServer.user c = user /\
  InitServer.port c = port /\
  sudo_password c = connect_password c /\
  forall pw,
    connect_password c = Some pw <->
    dotenv_value e (CONFIG_DIR cfg +:+ "/.env") "SSH_PASSWD" = Some pw /\
    pw <> "".
Proof.
  intros Hin.
  pose proof (run_Forall _ e _
                (full_run_connection cfg hostname user port tg hh ss rb dbg
                   e)) as Hall.
  apply (proj1 (Forall_forall _ _) Hall) in Hin. simpl in Hin. subst c.
  apply connect_fields.
Qed.

Lemma calls_share_connection_witness :
  EvCall Sample.conn Nginx
    ∈ (run Sample.willing
         (main Sample.cfg "example.org" None None false true true false
            false)).2 /\
  (host Sample.conn = "example.org" /\ InitServer.user Sample.conn = None /\
   InitServer.port Sample.conn = None /\
   sudo_password Sample.conn = connect_password Sample.conn /\
   forall pw,
     connect_password Sample.conn = Some pw <->
     dotenv_value Sample.willing (CONFIG_DIR Sample.cfg +:+ "/.env")
       "SSH_PASSWD" = Some pw /\
     pw <> "").
Proof.
  assert (Hin : EvCall Sample.conn Nginx
    ∈ (run Sample.willing
         (main Sample.cfg "example.org" None None false true true false
            false)).2).
  { apply (list_elem_of_lookup_2 _ 2). by vm_compute. }
  split; [exact Hin|].
  exact (calls_share_connection _ _ _ _ _ _ _ _ _ _ _ _ Hin).
Defined.

(** X17. The local [rclone.conf] is uploaded only when it exists, and then
    to [rclone.conf] under the remote configuration directory with mode
    600, creating the directory if needed. *)
Theorem rclone_conf_upload cfg hostname user port tg hh ss rb dbg e c
    dst perm cpd :
  EvCall c (Put (slash (CONFIG_DIR cfg) "rclone.conf") dst perm cpd)
    ∈ (run e (main cfg hostname user port tg hh ss rb dbg)).2 ->
  file_exists e (slash (CONFIG_DIR cfg) "rclone.conf") = true /\
  dst = REMOTE_CONFIG cfg +:+ "/rclone.conf" /\
  perm = "600" /\ cpd = Some true.
Proof.
  intros Hin.
  pose proof (run_Forall _ e _
                (full_run_rclone cfg hostname user port tg hh ss rb dbg e))
    as Hall.
  apply (proj1 (Forall_forall _ _) Hall) in Hin. by apply Hin.
Qed.

Lemma rclone_conf_upload_witness :
  EvCall Sample.conn
    (Put (slash (CONFIG_DIR Sample.cfg) "rclone.conf")
       "/data/ofm/config/rclone.conf" "600" (Some true))
    ∈ (run Sample.willing
         (main Sample.cfg "example.org" None None true false true false
            false)).2 /\
  (file_exists Sample.willing (slash (CONFIG_DIR Sample.cfg) "rclone.conf")
   = true /\
   "/data/ofm/config/rclone.conf"
   = REMOTE_CONFIG Sample.cfg +:+ "/rclone.conf" /\
   "600" = "600" /\ Some true = Some true).
Proof.
  assert (Hin : EvCall Sample.conn
    (Put (slash (CONFIG_DIR Sample.cfg) "rclone.conf")
       "/data/ofm/config/rclone.conf" "600" (Some true))
    ∈ (run Sample.willing
         (main Sample.cfg "example.org" None None true false true false
            false)).2).
  { apply (list_elem_of_lookup_2 _ 12). by vm_compute. }
  split; [exact Hin|].
  exact (rclone_conf_upload _ _ _ _ _ _ _ _ _ _ _ _ _ _ Hin).
Defined.

(** X18. On a host where no call fails, a run that the operator confirms
    finishes normally and makes calls for exactly the selected tasks. *)
Theorem successful_run_covers_selected cfg hostname user port tg hh ss rb e :
  (forall c f, call_raises e c f = false) ->
  confirm_answer e (run_prompt hostname) = true ->
  let r := run e (main cfg hostname user port tg hh ss rb false) in
  r.1 = Finished tt /\
  ((chosen_tile_gen e tg hh || chosen_http_host e tg hh) = true ->
   forall t, selected e tg hh ss rb t = true <->
             exists c f, EvCall c f ∈ r.2 /\ task_of f = t).
Proof.
  intros Hok Hrun r. subst r.
  rewrite run_no_failure by (intros; apply Hok).
  split.
  - unfold main, install.
    destruct tg, hh, ss, rb; answers; reflexivity.
  - intros Hsome t. split.
    + revert Hsome.
      unfold main, install, selected, chosen_tile_gen, chosen_http_host.
      destruct t.
      * destruct tg, hh, ss, rb; answers; intros Hsome Hsel; try done;
          eexists _, (AddUser "ofm" 2000); (split; [|done]);
          repeat first [apply list_elem_of_here | apply list_elem_of_further].
      * destruct tg, hh, ss, rb; answers; intros Hsome Hsel; try done;
          eexists _, InstallPlanetiler; (split; [|done]);
          repeat first [apply list_elem_of_here | apply list_elem_of_further].
      * destruct tg, hh, ss, rb; answers; intros Hsome Hsel; try done;
          eexists _, Nginx; (split; [|done]);
          repeat first [apply list_elem_of_here | apply list_elem_of_further].
      * destruct tg, hh, ss, rb; answers; intros Hsome Hsel; try done;
          eexists _, Reboot; (split; [|done]);
          repeat first [apply list_elem_of_here | apply list_elem_of_further].
    + intros (c & f & Hin & <-).
      pose proof (full_run_selected cfg hostname user port tg hh ss rb e)
        as Hall.
      by apply (proj1 (Forall_forall _ _) Hall) in Hin.
Qed.

Lemma successful_run_covers_selected_witness :
  let r := run Sample.willing
             (main Sample.cfg "example.org" None None false true true false
                false) in
  r.1 = Finished tt /\
  ((chosen_tile_gen Sample.willing false true
    || chosen_http_host Sample.willing false true) = true ->
   forall t, selected Sample.willing false true true false t = true <->
             exists c f, EvCall c f ∈ r.2 /\ task_of f = t).
Proof.
  refine (successful_run_covers_selected Sample.cfg "example.org" None None
            false true true false Sample.willing _ _).
  - intros c f. reflexivity.
  - reflexivity.
Defined.

End InitServerFacts.
